(** * Supply-chain graph store: the in-memory graph database, its
    pattern queries, the provenance trace and the snapshot format.

    The development embeds [graph_database.py] (class [GraphDatabase]) and
    the method [trace_supply_chain] of [graph_rag_engine.py].

    Conventions of the embedding.
    - A Python [str] is a Rocq [string], read as a sequence of code points
      below 256; the character classes ([\w], [\s], [strip]) and [upper]
      are Python's on these code points, which are those of the Unicode
      database.
    - A property value is a string or an integer ([value]).  Floats are not
      modelled.
    - A Python [dict] whose iteration order the program observes (the node
      table) is an insertion-ordered association list ([dict_get],
      [dict_set]); a [dict] that is only looked up or compared (property
      maps, result records) is a [gmap], whose equality is Python's [==].
    - A method that mutates the store takes the store and returns the new
      one; a method that can raise returns a [res]. *)

From Stdlib Require Import ZArith Ascii String.
From stdpp Require Import base option list gmap strings pretty.

(** ** Values, exceptions *)

Inductive value :=
  | VStr (s : string)
  | VNum (n : Z).

#[global] Instance value_eq_dec : EqDecision value.
Proof. solve_decision. Defined.

#[global] Instance value_countable : Countable value.
Proof.
  refine (inj_countable'
    (fun v => match v with VStr s => inl s | VNum n => inr n end)
    (fun x => match x with inl s => VStr s | inr n => VNum n end) _).
  intros []; reflexivity.
Defined.

(** [str(v)], as used by the f-strings of the source. *)
Definition str (v : value) : string :=
  match v with
  | VStr s => s
  | VNum n => pretty n
  end.

(** Python truthiness of a scalar. *)
Definition truthy (v : value) : bool :=
  match v with
  | VStr s => negb (String.eqb s "")
  | VNum n => negb (Z.eqb n 0)
  end.

Inductive exn :=
  | ValueError (msg : string)
  | KeyError (key : string)
  | IndexError
  | FileNotFoundError (path : string)
  | AttributeError (attribute : string).

Inductive res (A : Type) :=
  | Ok (a : A)
  | Raise (e : exn).
Arguments Ok {A} a.
Arguments Raise {A} e.

#[global] Instance res_ret : MRet res := fun A a => Ok a.
#[global] Instance res_bind : MBind res := fun A B f m =>
  match m with
  | Ok a => f a
  | Raise e => Raise e
  end.

(** ** Insertion-ordered dictionaries *)

Section pydict.
Context {K V : Type} `{EqDecision K}.

(** [d.get(k)] *)
Fixpoint dict_get (k : K) (d : list (K * V)) : option V :=
  match d with
  | [] => None
  | (k', v) :: d' => if decide (k' = k) then Some v else dict_get k d'
  end.

(** [k in d] *)
Definition dict_mem (k : K) (d : list (K * V)) : bool :=
  match dict_get k d with Some _ => true | None => false end.

(** [d[k] = v]: an existing key keeps its position, a new key goes last. *)
Fixpoint dict_set (k : K) (v : V) (d : list (K * V)) : list (K * V) :=
  match d with
  | [] => [(k, v)]
  | (k', v') :: d' =>
      if decide (k' = k) then (k', v) :: d' else (k', v') :: dict_set k v d'
  end.

(** The keys of a dictionary are pairwise distinct. *)
Definition dict_wf (d : list (K * V)) : Prop := NoDup d.*1.

(** Number of entries stored under key [k]. *)
Definition dict_count (k : K) (d : list (K * V)) : nat :=
  length (filter (fun kv => kv.1 = k) d).
End pydict.

(** ** The store *)

Record node := Node {
  label : string;
  properties : gmap string value
}.

Record relationship := Rel {
  rel_from : value;
  rel_to : value;
  rel_type : string;
  rel_properties : gmap string value
}.

Record GraphDatabase := Db {
  nodes : list (value * node);
  relationships : list relationship;
  node_counter : nat
}.

(** [GraphDatabase.__init__] *)
Definition init : GraphDatabase := Db [] [] 0.

(** [GraphDatabase.clear] *)
Definition clear (db : GraphDatabase) : GraphDatabase := Db [] [] 0.

(** [GraphDatabase.create_node]: returns the new store and the node id. *)
Definition create_node (db : GraphDatabase) (lbl : string)
    (props : gmap string value) : GraphDatabase * value :=
  let node_id :=
    match props !! "id" with
    | Some v => v
    | None => VStr (lbl +:+ "_" +:+ pretty (node_counter db))
    end in
  (Db (dict_set node_id (Node lbl props) (nodes db))
      (relationships db)
      (S (node_counter db)),
   node_id).

(** [GraphDatabase.create_relationship]: [props] is the optional argument
    [properties], whose default is [None]. *)
Definition create_relationship (db : GraphDatabase) (from_id to_id : value)
    (rel_ty : string) (props : option (gmap string value))
    : GraphDatabase * res unit :=
  if negb (dict_mem from_id (nodes db)) || negb (dict_mem to_id (nodes db))
  then (db, Raise (ValueError
          ("Node not found: " +:+ str from_id +:+ " or " +:+ str to_id)))
  else (Db (nodes db)
           (relationships db ++ [Rel from_id to_id rel_ty (default ∅ props)])
           (node_counter db),
        Ok ()).

(** ** Text: string methods *)

Definition chr (n : nat) : ascii := ascii_of_nat n.

(** The double quote. *)
Definition dquote : ascii := chr 34.

(** [str.isspace]: TAB, LF, VT, FF, CR, the four separators FS, GS, RS,
    US, the space, NEL (U+0085) and the no-break space (U+00A0).
    [str.strip()] and the regular-expression class [\s] both use it. *)
Definition is_space (c : ascii) : bool :=
  let n := nat_of_ascii c in
  ((9 <=? n) && (n <=? 13)) || ((28 <=? n) && (n <=? 32))
  || (n =? 133) || (n =? 160).

(** The class [\w] of a [str] pattern: the underscore and the characters
    for which [str.isalnum] holds.  These are the digits and letters of
    ASCII and, above them, U+00AA, U+00B2, U+00B3, U+00B5, U+00B9, U+00BA,
    U+00BC to U+00BE, and the letters U+00C0 to U+00FF without the two
    signs U+00D7 and U+00F7. *)
Definition is_word (c : ascii) : bool :=
  let n := nat_of_ascii c in
  ((48 <=? n) && (n <=? 57)) || ((65 <=? n) && (n <=? 90))
  || (n =? 95) || ((97 <=? n) && (n <=? 122))
  || (n =? 170) || (n =? 178) || (n =? 179) || (n =? 181)
  || (n =? 185) || (n =? 186) || ((188 <=? n) && (n <=? 190))
  || ((192 <=? n) && (n <=? 214)) || ((216 <=? n) && (n <=? 246))
  || ((248 <=? n) && (n <=? 255)).

(** The code points of a text. *)
Definition points (s : list ascii) : list nat := nat_of_ascii <$> s.

(** [c.upper()], as code points: the upper-case form of a character can lie
    above U+00FF (U+039C for the micro sign, U+0178 for U+00FF) and can be
    two characters long (SS for U+00DF). *)
Definition upper_char (c : ascii) : list nat :=
  let n := nat_of_ascii c in
  if (97 <=? n) && (n <=? 122) then [n - 32]
  else if n =? 181 then [924]
  else if n =? 223 then [83; 83]
  else if (224 <=? n) && (n <=? 254) && negb (n =? 247) then [n - 32]
  else if n =? 255 then [376]
  else [n].

(** [s.upper()], as code points. *)
Definition upper (s : list ascii) : list nat := s ≫= upper_char.

(** [s.startswith(p)], on code points. *)
Fixpoint startswith (s p : list nat) : bool :=
  match p, s with
  | [], _ => true
  | c :: p', d :: s' => (c =? d) && startswith s' p'
  | _ :: _, [] => false
  end.

(** [s.lstrip(chars)], [s.rstrip(chars)], [s.strip(chars)], the set of
    characters given as a predicate. *)
Fixpoint lstrip_by (p : ascii -> bool) (s : list ascii) : list ascii :=
  match s with
  | c :: s' => if p c then lstrip_by p s' else s
  | [] => []
  end.

Definition rstrip_by (p : ascii -> bool) (s : list ascii) : list ascii :=
  reverse (lstrip_by p (reverse s)).

Definition strip_by (p : ascii -> bool) (s : list ascii) : list ascii :=
  rstrip_by p (lstrip_by p s).

(** [s.strip()] *)
Definition strip (s : list ascii) : list ascii := strip_by is_space s.

(** [s.strip(c)] for a one-character argument. *)
Definition strip_char (c : ascii) (s : list ascii) : list ascii :=
  strip_by (Ascii.eqb c) s.

(** [s.split(sep)] for a one-character separator. *)
Fixpoint split (sep : ascii) (s : list ascii) : list (list ascii) :=
  match s with
  | [] => [[]]
  | c :: s' =>
      if Ascii.eqb c sep then [] :: split sep s'
      else match split sep s' with
           | h :: r => (c :: h) :: r
           | [] => [[c]]
           end
  end.

(** [s.split(sep, 1)] when [sep in s]: the text before and after the first
    separator; [None] when [sep not in s]. *)
Fixpoint split_once (sep : ascii) (s : list ascii)
    : option (list ascii * list ascii) :=
  match s with
  | [] => None
  | c :: s' =>
      if Ascii.eqb c sep then Some ([], s')
      else match split_once sep s' with
           | Some (a, b) => Some (c :: a, b)
           | None => None
           end
  end.

(** ** Text: the two regular expressions of [_execute_match]

    [re.findall] scans the text from left to right; at each position it
    tries the pattern, and after a match it goes on from the end of the
    match.  Both patterns match at least one character. *)

(** The longest prefix of [s] in the class [p], and the rest: a greedy
    [p+] or [p*]. *)
Fixpoint span (p : ascii -> bool) (s : list ascii) : list ascii * list ascii :=
  match s with
  | c :: s' =>
      if p c then let '(a, b) := span p s' in (c :: a, b) else ([], s)
  | [] => ([], [])
  end.

Definition is_nil {A} (l : list A) : bool :=
  match l with [] => true | _ => false end.

(** A literal piece of a pattern, tried at the start of [s]: the text after
    it. *)
Fixpoint literal (lit s : list ascii) : option (list ascii) :=
  match lit with
  | [] => Some s
  | c :: lit' =>
      match s with
      | d :: s' => if Ascii.eqb c d then literal lit' s' else None
      | [] => None
      end
  end.

(** The end of the node pattern, [(?:\s*\{([^}]+)\})?\)], tried at [s]:
    the captured filter text (empty when the optional group takes no part)
    and the text after the closing parenthesis.  The group is tried first;
    when the match fails with it, the pattern is tried without it. *)
Definition node_pattern_tail (s : list ascii)
    : option (list ascii * list ascii) :=
  let with_group :=
    let '(_, s1) := span is_space s in
    s2 ← literal ["{"%char] s1;
    let '(filt, s3) := span (fun c => negb (Ascii.eqb c "}")) s2 in
    if is_nil filt then None else
    rest ← literal ["}"%char; ")"%char] s3;
    Some (filt, rest) in
  match with_group with
  | Some r => Some r
  | None => rest ← literal [")"%char] s; Some ([], rest)
  end.

(** [node_pattern = r'\((\w+):(\w+)(?:\s*\{([^}]+)\})?\)'] tried at the
    start of [s]: the three groups and the text after the match.  Every
    repetition is greedy and is followed by a character outside its class,
    so a shorter repetition never leads to a match. *)
Definition node_pattern (s : list ascii)
    : option ((list ascii * list ascii * list ascii) * list ascii) :=
  s1 ← literal ["("%char] s;
  let '(var, s2) := span is_word s1 in
  if is_nil var then None else
  s3 ← literal [":"%char] s2;
  let '(lbl, s4) := span is_word s3 in
  if is_nil lbl then None else
  '(filt, rest) ← node_pattern_tail s4;
  Some ((var, lbl, filt), rest).

(** [rel_pattern = r'-\[:(\w+)\]->'] tried at the start of [s]. *)
Definition rel_pattern (s : list ascii) : option (list ascii * list ascii) :=
  s1 ← literal ["-"%char; "["%char; ":"%char] s;
  let '(ty, s2) := span is_word s1 in
  if is_nil ty then None else
  rest ← literal ["]"%char; "-"%char; ">"%char] s2;
  Some (ty, rest).

(** [re.findall(pattern, s)]: [skip] counts the characters of [s] that the
    last match still covers. *)
Fixpoint findall_from {G} (pattern : list ascii -> option (G * list ascii))
    (s : list ascii) (skip : nat) : list G :=
  match s with
  | [] => []
  | _ :: s' =>
      match skip with
      | S k => findall_from pattern s' k
      | O =>
          match pattern s with
          | Some (g, rest) =>
              g :: findall_from pattern s' (length s' - length rest)
          | None => findall_from pattern s' 0
          end
      end
  end.

Definition findall {G} (pattern : list ascii -> option (G * list ascii))
    (s : list ascii) : list G :=
  findall_from pattern s 0.

Definition of_text (s : list ascii) : string := string_of_list_ascii s.
Definition to_text (s : string) : list ascii := list_ascii_of_string s.

(** ** Pattern queries *)

(** A value of a result row: a flattened node record or a string. *)
Inductive bval :=
  | BRec (r : gmap string value)
  | BStr (s : string).

#[global] Instance bval_eq_dec : EqDecision bval.
Proof. solve_decision. Defined.

(** [{'id': nid, **node['properties']}]: a key [id] among the properties
    overrides the node id. *)
Definition node_record (nid : value) (n : node) : gmap string value :=
  properties n ∪ {[ "id" := nid ]}.

(** [GraphDatabase._parse_properties] *)
Definition _parse_properties (props_str : list ascii) : gmap string string :=
  foldl (fun props pair =>
           match split_once ":" pair with
           | Some (key, val) =>
               let key := strip key in
               let val := strip_char "'" (strip_char dquote (strip val)) in
               <[ of_text key := of_text val ]> props
           | None => props
           end)
        ∅ (split "," props_str).

(** [n[var_name]] on a result row. *)
Definition subscript (n : gmap string bval) (k : string)
    : res (gmap string value) :=
  match n !! k with
  | Some (BRec r) => Ok r
  | _ => Raise (KeyError k)
  end.

(** [l[i]] on a list. *)
Definition index {A} (l : list A) (i : nat) : res A :=
  match l !! i with
  | Some x => Ok x
  | None => Raise IndexError
  end.

(** [[x for x in l if f(x)]] where evaluating [f] can raise. *)
Fixpoint filter_res {A} (f : A -> res bool) (l : list A) : res (list A) :=
  match l with
  | [] => Ok []
  | x :: l' =>
      b ← f x;
      r ← filter_res f l';
      Ok (if b : bool then x :: r else r)
  end.

(** [all(r.get(k) == v for k, v in prop_filters.items())] on a flattened
    record [r]: the filter values are strings. *)
Definition passes (prop_filters : gmap string string)
    (r : gmap string value) : bool :=
  forallb (fun kv => bool_decide (r !! kv.1 = Some (VStr kv.2)))
          (map_to_list prop_filters).

(** The single-node branch of [_execute_match]. *)
Definition match_single_node (db : GraphDatabase)
    (nodes_match : list (string * string * string))
    : res (list (gmap string bval)) :=
  '(var_name, lbl, props) ← index nodes_match 0;
  let matching_nodes : list (gmap string bval) :=
    (fun kv => {[ var_name := BRec (node_record kv.1 kv.2) ]})
      <$> filter (fun kv => label kv.2 = lbl) (nodes db) in
  if negb (String.eqb props "") then
    let prop_filters := _parse_properties (to_text props) in
    filter_res
      (fun n => r ← subscript n var_name; Ok (passes prop_filters r))
      matching_nodes
  else Ok matching_nodes.

(** The body of the loop of the relationship branch: the row appended for
    [rel], if any. *)
Definition match_rel_row (db : GraphDatabase) (var1 label1 var2 label2 : string)
    (rel_ty : string) (rel : relationship) : list (gmap string bval) :=
  if negb (String.eqb (rel_type rel) rel_ty) then []
  else
    match dict_get (rel_from rel) (nodes db),
          dict_get (rel_to rel) (nodes db) with
    | Some from_node, Some to_node =>
        if String.eqb (label from_node) label1
           && String.eqb (label to_node) label2
        then [ <[ "relationship" := BStr (rel_type rel) ]>
                 (<[ var2 := BRec (node_record (rel_to rel) to_node) ]>
                    {[ var1 := BRec (node_record (rel_from rel) from_node) ]}) ]
        else []
    | _, _ => []
    end.

(** The relationship branch of [_execute_match]. *)
Definition match_relationship (db : GraphDatabase)
    (nodes_match : list (string * string * string)) (rels_match : list string)
    : res (list (gmap string bval)) :=
  '(var1, label1, props1) ← index nodes_match 0;
  '(var2, label2, props2) ← index nodes_match 1;
  rel_ty ← index rels_match 0;
  Ok (relationships db ≫= match_rel_row db var1 label1 var2 label2 rel_ty).

(** [GraphDatabase._execute_match] *)
Definition _execute_match (db : GraphDatabase) (query : list ascii)
    : res (list (gmap string bval)) :=
  let nodes_match :=
    (fun g : list ascii * list ascii * list ascii =>
       (of_text g.1.1, of_text g.1.2, of_text g.2))
      <$> findall node_pattern query in
  let rels_match := of_text <$> findall rel_pattern query in
  if is_nil nodes_match then Ok []
  else if (length nodes_match =? 1) && is_nil rels_match then
    match_single_node db nodes_match
  else if (2 <=? length nodes_match) && negb (is_nil rels_match) then
    match_relationship db nodes_match rels_match
  else Ok [].

(** [GraphDatabase._execute_create] *)
Definition _execute_create (db : GraphDatabase) (query : list ascii)
    : res (list (gmap string bval)) :=
  Ok [ {[ "result" := BStr "Created" ]} ].

(** [GraphDatabase.execute_cypher] *)
Definition execute_cypher (db : GraphDatabase) (query : string)
    : res (list (gmap string bval)) :=
  let query := strip (to_text query) in
  if startswith (upper query) (points (to_text "MATCH")) then
    _execute_match db query
  else if startswith (upper query) (points (to_text "CREATE")) then
    _execute_create db query
  else if startswith (upper query) (points (to_text "RETURN")) then
    Ok [ {[ "result" := BStr "OK" ]} ]
  else Ok [].

(** ** The two query shapes of the grammar

    [MATCH (var:Label {k: v, ...}) RETURN var] and
    [MATCH (var1:Label1)-[:RELTYPE]->(var2:Label2) RETURN var1, var2],
    each node pattern with an optional inline filter.  A filter is given by
    the white space before its opening brace and the text between the
    braces. *)

Definition is_identifier (s : string) : bool :=
  negb (is_nil (to_text s)) && forallb is_word (to_text s).

Definition filter_ok (f : option (string * string)) : bool :=
  match f with
  | None => true
  | Some (ws, body) =>
      forallb is_space (to_text ws)
      && negb (is_nil (to_text body))
      && forallb (fun c => negb (Ascii.eqb c "}")) (to_text body)
  end.

Definition filter_body (f : option (string * string)) : string :=
  match f with
  | None => ""
  | Some (_, body) => body
  end.

Definition filter_text (f : option (string * string)) : string :=
  match f with
  | None => ""
  | Some (ws, body) => ws +:+ "{" +:+ body +:+ "}"
  end.

Definition node_text (var lbl : string) (f : option (string * string))
    : string :=
  "(" +:+ var +:+ ":" +:+ lbl +:+ filter_text f +:+ ")".

Definition single_node_query (var lbl : string) (f : option (string * string))
    : string :=
  "MATCH " +:+ node_text var lbl f +:+ " RETURN " +:+ var.

Definition relationship_query (var1 label1 : string)
    (f1 : option (string * string)) (rel_ty var2 label2 : string)
    (f2 : option (string * string)) : string :=
  "MATCH " +:+ node_text var1 label1 f1 +:+ "-[:" +:+ rel_ty +:+ "]->"
  +:+ node_text var2 label2 f2 +:+ " RETURN " +:+ var1 +:+ ", " +:+ var2.

(** The label of the node stored under [nid], if any. *)
Definition node_label (db : GraphDatabase) (nid : value) : option string :=
  label <$> dict_get nid (nodes db).

(** A string between double quotes. *)
Definition quoted (s : string) : string :=
  String dquote (s +:+ String dquote "").

(** ** Examples *)

Definition sup001 : gmap string value :=
  {[ "id" := VStr "SUP001"; "name" := VStr "Tuscany Leather Co.";
     "location" := VStr "Florence, Italy" ]}.
Definition mat001 : gmap string value :=
  {[ "id" := VStr "MAT001"; "name" := VStr "Premium Calf Leather";
     "type" := VStr "Leather" ]}.

Definition db_main : GraphDatabase :=
  let '(db, s) := create_node init "Supplier" sup001 in
  let '(db, m) := create_node db "Material" mat001 in
  (create_relationship db s m "PROVIDES" None).1.

(** Inline filters: on a name, on a text that contains an arrow, on a text
    that contains a closing brace, and the filter of the specification's
    example, whose value contains a comma. *)
Definition name_filter : option (string * string) :=
  Some (" ", "name: " +:+ quoted "Tuscany Leather Co.").

Definition arrow_filter : option (string * string) :=
  Some (" ", "name: " +:+ quoted "-[:SUPPLIED_TO]->").

Definition brace_filter : option (string * string) :=
  Some (" ", "name: " +:+ quoted "a}b").

Definition florence_filter : option (string * string) :=
  Some (" ", "location: " +:+ quoted "Florence, Italy").

(** A product with two manufacturers.  Each factory has its own
    certification and its own material, each material its own supplier. *)
Definition add_node (db : GraphDatabase) (lbl nid name : string)
    : GraphDatabase :=
  (create_node db lbl {[ "id" := VStr nid; "name" := VStr name ]}).1.

Definition add_rel (db : GraphDatabase) (from_id to_id rel_ty : string)
    : GraphDatabase :=
  (create_relationship db (VStr from_id) (VStr to_id) rel_ty None).1.

Definition db_two_factories : GraphDatabase :=
  let db := add_node init "Product" "P1" "Bag" in
  let db := add_node db "Factory" "F1" "First factory" in
  let db := add_node db "Factory" "F2" "Second factory" in
  let db := add_node db "Certification" "C1" "ISO 9001" in
  let db := add_node db "Certification" "C2" "ISO 14001" in
  let db := add_node db "Material" "M1" "Leather" in
  let db := add_node db "Material" "M2" "Silk" in
  let db := add_node db "Supplier" "S1" "Tannery" in
  let db := add_node db "Supplier" "S2" "Mill" in
  let db := add_rel db "F1" "P1" "MANUFACTURES" in
  let db := add_rel db "F2" "P1" "MANUFACTURES" in
  let db := add_rel db "F1" "C1" "HAS_CERTIFICATION" in
  let db := add_rel db "F2" "C2" "HAS_CERTIFICATION" in
  let db := add_rel db "M1" "F1" "SUPPLIED_TO" in
  let db := add_rel db "M2" "F2" "SUPPLIED_TO" in
  let db := add_rel db "S1" "M1" "PROVIDES" in
  add_rel db "S2" "M2" "PROVIDES".

(** A product of one factory that has two certifications and two
    materials, both provided by the same supplier. *)
Definition db_shared_supplier : GraphDatabase :=
  let db := add_node init "Product" "P1" "Bag" in
  let db := add_node db "Factory" "F1" "Factory" in
  let db := add_node db "Certification" "C1" "ISO 9001" in
  let db := add_node db "Certification" "C2" "ISO 14001" in
  let db := add_node db "Material" "M1" "Leather" in
  let db := add_node db "Material" "M2" "Silk" in
  let db := add_node db "Supplier" "S1" "Tannery" in
  let db := add_rel db "F1" "P1" "MANUFACTURES" in
  let db := add_rel db "F1" "C1" "HAS_CERTIFICATION" in
  let db := add_rel db "F1" "C2" "HAS_CERTIFICATION" in
  let db := add_rel db "M1" "F1" "SUPPLIED_TO" in
  let db := add_rel db "M2" "F1" "SUPPLIED_TO" in
  let db := add_rel db "S1" "M1" "PROVIDES" in
  add_rel db "S1" "M2" "PROVIDES".

Definition props_of (nid name : string) : gmap string value :=
  {[ "id" := VStr nid; "name" := VStr name ]}.

(** A product of one factory with two materials, whose two suppliers were
    created without an explicit id: [create_node] keys them [Supplier_4]
    and [Supplier_5], and their properties hold no [id].  The first
    supplier provides the first material, the second supplier both. *)
Definition db_unnamed_suppliers : GraphDatabase :=
  let db := add_node init "Product" "P1" "Bag" in
  let db := add_node db "Factory" "F1" "Factory" in
  let db := add_node db "Material" "M1" "Leather" in
  let db := add_node db "Material" "M2" "Silk" in
  let db := (create_node db "Supplier" {[ "name" := VStr "Tannery" ]}).1 in
  let db := (create_node db "Supplier" {[ "name" := VStr "Mill" ]}).1 in
  let db := add_rel db "F1" "P1" "MANUFACTURES" in
  let db := add_rel db "M1" "F1" "SUPPLIED_TO" in
  let db := add_rel db "M2" "F1" "SUPPLIED_TO" in
  let db := add_rel db "Supplier_4" "M1" "PROVIDES" in
  let db := add_rel db "Supplier_5" "M1" "PROVIDES" in
  add_rel db "Supplier_5" "M2" "PROVIDES".

(** ** Listing nodes and relationships *)

(** [GraphDatabase.get_all_nodes]: [lbl] is the optional argument [label];
    the test [if label:] fails for [None] and for the empty string. *)
Definition get_all_nodes (db : GraphDatabase) (lbl : option string)
    : list (gmap string value) :=
  match lbl with
  | Some l =>
      if negb (String.eqb l "") then
        (fun kv => node_record kv.1 kv.2)
          <$> filter (fun kv => label kv.2 = l) (nodes db)
      else
        (fun kv => properties kv.2
                   ∪ <[ "label" := VStr (label kv.2) ]> {[ "id" := kv.1 ]})
          <$> nodes db
  | None =>
      (fun kv => properties kv.2
                 ∪ <[ "label" := VStr (label kv.2) ]> {[ "id" := kv.1 ]})
        <$> nodes db
  end.

(** [GraphDatabase.get_all_relationships] *)
Definition get_all_relationships (db : GraphDatabase) (rel_ty : option string)
    : list relationship :=
  match rel_ty with
  | Some t =>
      if negb (String.eqb t "") then
        filter (fun r => rel_type r = t) (relationships db)
      else relationships db
  | None => relationships db
  end.

(** ** The provenance trace ([GraphRAGEngine.trace_supply_chain]) *)

(** A value of a material record: a property, or the list stored under
    [suppliers]. *)
Inductive mval :=
  | MVal (v : value)
  | MSuppliers (l : list (gmap string value)).

(** A value of the trace record. *)
Inductive tval :=
  | TNone
  | TStr (s : string)
  | TProps (p : gmap string value)
  | TPropsList (l : list (gmap string value))
  | TMaterials (l : list (gmap string mval)).

(** The inner loop over [cert_rel]: what it appends to
    [trace['certifications']] for the factory id [factory]. *)
Definition certifications_of (db : GraphDatabase) (factory : value)
    : list (gmap string value) :=
  relationships db ≫= fun cert_rel =>
    if bool_decide (rel_from cert_rel = factory)
       && String.eqb (rel_type cert_rel) "HAS_CERTIFICATION"
    then match dict_get (rel_to cert_rel) (nodes db) with
         | Some cert_node => [properties cert_node]
         | None => []
         end
    else [].

(** The first loop: it has no [break], so every MANUFACTURES relationship
    into the product assigns [trace['factory']] and appends the
    certifications of its source. *)
Definition find_factory (db : GraphDatabase) (product_id : value)
    : option (gmap string value) * list (gmap string value) :=
  foldl (fun st rel =>
           if bool_decide (rel_to rel = product_id)
              && String.eqb (rel_type rel) "MANUFACTURES"
           then match dict_get (rel_from rel) (nodes db) with
                | Some factory_node =>
                    (Some (properties factory_node),
                     st.2 ++ certifications_of db (rel_from rel))
                | None => st
                end
           else st)
        (None, []) (relationships db).

(** The second loop, which leaves at the first MANUFACTURES relationship
    into the product: [factory_id]. *)
Fixpoint first_manufacturer (rels : list relationship) (product_id : value)
    : option value :=
  match rels with
  | [] => None
  | rel :: rels' =>
      if bool_decide (rel_to rel = product_id)
         && String.eqb (rel_type rel) "MANUFACTURES"
      then Some (rel_from rel)
      else first_manufacturer rels' product_id
  end.

(** The loop over [sup_rel]: [material_suppliers] of one material. *)
Definition suppliers_of_material (db : GraphDatabase) (material : value)
    : list (gmap string value) :=
  relationships db ≫= fun sup_rel =>
    if bool_decide (rel_to sup_rel = material)
       && String.eqb (rel_type sup_rel) "PROVIDES"
    then match dict_get (rel_from sup_rel) (nodes db) with
         | Some supplier_node => [properties supplier_node]
         | None => []
         end
    else [].

(** The third loop: [trace['materials']] and the undeduplicated
    [trace['suppliers']]. *)
Definition collect_materials (db : GraphDatabase) (factory_id : value)
    : list (gmap string mval) * list (gmap string value) :=
  foldl (fun st rel =>
           if bool_decide (rel_to rel = factory_id)
              && String.eqb (rel_type rel) "SUPPLIED_TO"
           then match dict_get (rel_from rel) (nodes db) with
                | Some material_node =>
                    let material_suppliers :=
                      suppliers_of_material db (rel_from rel) in
                    let material_info :=
                      <[ "suppliers" := MSuppliers material_suppliers ]>
                        (MVal <$> properties material_node) in
                    (st.1 ++ [material_info], st.2 ++ material_suppliers)
                | None => st
                end
           else st)
        ([], []) (relationships db).

(** The last loop: [unique_suppliers], with the set [seen]. *)
Fixpoint unique_suppliers (seen : gset (option value))
    (suppliers : list (gmap string value)) : list (gmap string value) :=
  match suppliers with
  | [] => []
  | supplier :: rest =>
      let supplier_id := supplier !! "id" in
      if decide (supplier_id ∈ seen) then unique_suppliers seen rest
      else supplier :: unique_suppliers ({[ supplier_id ]} ∪ seen) rest
  end.

(** The list stored under [suppliers] in a material record. *)
Definition suppliers_in (material_info : gmap string mval)
    : list (gmap string value) :=
  match material_info !! "suppliers" with
  | Some (MSuppliers l) => l
  | _ => []
  end.

(** [if trace['factory']:]: neither [None] nor an empty dictionary. *)
Definition factory_truthy (factory : option (gmap string value)) : bool :=
  match factory with
  | Some p => negb (bool_decide (p = ∅))
  | None => false
  end.

Definition trace_supply_chain (db : GraphDatabase) (product_id : value)
    : gmap string tval :=
  match dict_get product_id (nodes db) with
  | None =>
      {[ "error" := TStr ("Product " +:+ str product_id +:+ " not found") ]}
  | Some product_node =>
      let '(factory, certifications) := find_factory db product_id in
      let '(materials, suppliers) :=
        if factory_truthy factory then
          match first_manufacturer (relationships db) product_id with
          | Some factory_id =>
              if truthy factory_id then collect_materials db factory_id
              else ([], [])
          | None => ([], [])
          end
        else ([], []) in
      {[ "product" := TProps (properties product_node);
         "factory" := match factory with Some p => TProps p | None => TNone end;
         "materials" := TMaterials materials;
         "suppliers" := TPropsList (unique_suppliers ∅ suppliers);
         "certifications" := TPropsList certifications ]}
  end.

(** ** Snapshots ([export_to_json], [import_from_json])

    A file holds a JSON document.  [json.dump] writes the document of a
    Python object and [json.load] reads it back: dictionaries become
    objects and objects dictionaries, lists arrays, strings and integers
    themselves.  A dictionary key that is an integer is written as its
    decimal text, since the keys of a JSON object are strings. *)

#[warnings="-register-all"]
Inductive json :=
  | JNull
  | JStr (s : string)
  | JNum (n : Z)
  | JArr (l : list json)
  | JObj (o : list (string * json)).

Definition json_of_value (v : value) : json :=
  match v with
  | VStr s => JStr s
  | VNum n => JNum n
  end.

Definition json_of_props (p : gmap string value) : json :=
  JObj ((fun kv => (kv.1, json_of_value kv.2)) <$> map_to_list p).

(** The key [json.dump] writes for a dictionary key. *)
Definition json_key (k : value) : string := str k.

Definition json_of_node (n : node) : json :=
  JObj [("label", JStr (label n)); ("properties", json_of_props (properties n))].

Definition json_of_rel (r : relationship) : json :=
  JObj [("from", json_of_value (rel_from r));
        ("to", json_of_value (rel_to r));
        ("type", JStr (rel_type r));
        ("properties", json_of_props (rel_properties r))].

(** The document of [{'nodes': self.nodes, 'relationships':
    self.relationships}]. *)
Definition snapshot (db : GraphDatabase) : json :=
  JObj [("nodes",
         JObj ((fun kv => (json_key kv.1, json_of_node kv.2)) <$> nodes db));
        ("relationships", JArr (json_of_rel <$> relationships db))].

(** The dictionary [json.load] builds from the members of an object: a
    repeated key keeps its first position and its last value. *)
Definition dict_of_members {K V} `{EqDecision K} (o : list (K * V))
    : list (K * V) :=
  foldl (fun d kv => dict_set kv.1 kv.2 d) [] o.

(** The property value, the property map, the node table and the
    relationship list that a document is, when it is one. *)
Definition value_of_json (j : json) : option value :=
  match j with
  | JStr s => Some (VStr s)
  | JNum n => Some (VNum n)
  | _ => None
  end.

Definition props_of_json (j : json) : option (gmap string value) :=
  match j with
  | JObj o =>
      l ← mapM (fun kv => v ← value_of_json kv.2; Some (kv.1, v)) o;
      Some (foldl (fun m kv => <[ kv.1 := kv.2 ]> m) ∅ l)
  | _ => None
  end.

(** The node that a document is: a dictionary with the two keys [label]
    and [properties] and no other, as [create_node] stores it. *)
Definition node_of_json (j : json) : option node :=
  match j with
  | JObj o =>
      let d := dict_of_members o in
      lbl ← dict_get "label" d;
      p ← dict_get "properties" d ≫= props_of_json;
      match lbl with
      | JStr l => if length d =? 2 then Some (Node l p) else None
      | _ => None
      end
  | _ => None
  end.

(** The relationship that a document is: a dictionary with the four keys
    [from], [to], [type] and [properties] and no other, as
    [create_relationship] stores it. *)
Definition rel_of_json (j : json) : option relationship :=
  match j with
  | JObj o =>
      let d := dict_of_members o in
      f ← dict_get "from" d ≫= value_of_json;
      t ← dict_get "to" d ≫= value_of_json;
      ty ← dict_get "type" d;
      p ← dict_get "properties" d ≫= props_of_json;
      match ty with
      | JStr ty => if length d =? 4 then Some (Rel f t ty p) else None
      | _ => None
      end
  | _ => None
  end.

Definition nodes_of_json (j : json) : option (list (value * node)) :=
  match j with
  | JObj o =>
      l ← mapM (fun kv => n ← node_of_json kv.2; Some (VStr kv.1, n)) o;
      Some (dict_of_members l)
  | _ => None
  end.

Definition rels_of_json (j : json) : option (list relationship) :=
  match j with
  | JArr l => mapM rel_of_json l
  | _ => None
  end.

(** The file system: the document held by each path. *)

(** [GraphDatabase.export_to_json] *)
Definition export_to_json (db : GraphDatabase) (fs : gmap string json)
    (filepath : string) : gmap string json :=
  <[ filepath := snapshot db ]> fs.

(** What [import_from_json] leaves behind.  The method checks nothing: it
    assigns to [self.nodes] and [self.relationships] whatever the document
    holds under the two keys.  When the two values are a node table and a
    relationship list, the result is the store [Installed db]; otherwise
    the two attributes hold documents of another shape and the object is no
    [GraphDatabase] of this development: [Untyped] keeps the two documents
    and the counter. *)
Inductive imported :=
  | Installed (db : GraphDatabase)
  | Untyped (nodes_doc relationships_doc : json) (counter : nat).

(** [GraphDatabase.import_from_json]: [data.get('nodes', {})] and
    [data.get('relationships', [])] replace the node table and the
    relationship list; the counter is left as it is.  [open] raises for a
    path without a file, and [data.get] raises for a document that is not
    an object. *)
Definition import_from_json (db : GraphDatabase) (fs : gmap string json)
    (filepath : string) : res imported :=
  match fs !! filepath with
  | None => Raise (FileNotFoundError filepath)
  | Some (JObj o) =>
      let data := dict_of_members o in
      let nodes_doc := default (JObj []) (dict_get "nodes" data) in
      let relationships_doc :=
        default (JArr []) (dict_get "relationships" data) in
      match nodes_of_json nodes_doc, rels_of_json relationships_doc with
      | Some ns, Some rs => Ok (Installed (Db ns rs (node_counter db)))
      | _, _ => Ok (Untyped nodes_doc relationships_doc (node_counter db))
      end
  | Some _ => Raise (AttributeError "get")
  end.

(** A key of the node table that is a string. *)
Definition is_str (k : value) : bool :=
  match k with
  | VStr _ => true
  | VNum _ => false
  end.

(** ** Schema ([GraphDatabase.get_schema]) *)

Record schema := Schema {
  node_labels : list string;
  relationship_types : list string;
  node_count : nat;
  relationship_count : nat
}.

(** [list(set(...))] lists each element of the set once, in an order that
    Python does not fix; [elements] lists them in one such order. *)
Definition get_schema (db : GraphDatabase) : schema :=
  let labels : gset string := list_to_set ((fun kv => label kv.2) <$> nodes db) in
  let rel_types : gset string := list_to_set (rel_type <$> relationships db) in
  Schema (elements labels) (elements rel_types)
         (length (nodes db)) (length (relationships db)).

(** Referential integrity: both endpoints of every relationship are keys
    of the node table. *)
Definition rel_integrity (db : GraphDatabase) : Prop :=
  Forall (fun r => dict_mem (rel_from r) (nodes db) = true
                   /\ dict_mem (rel_to r) (nodes db) = true)
         (relationships db).

(** The id [create_node] makes up for the label [lbl] when the counter is
    [n]. *)
Definition synthesized_id (lbl : string) (n : nat) : value :=
  VStr (lbl +:+ "_" +:+ pretty n).

(** ** Further query texts *)

(** A text in which the character [c] does not occur. *)
Definition no_char (c : ascii) (s : string) : bool :=
  forallb (fun d => negb (Ascii.eqb d c)) (to_text s).

(** The filter text [k1: (v1 quoted), k2: (v2 quoted), ...]. *)
Definition pair_text (kv : string * string) : string :=
  kv.1 +:+ ": " +:+ quoted kv.2.

Fixpoint pairs_text (kvs : list (string * string)) : string :=
  match kvs with
  | [] => ""
  | [kv] => pair_text kv
  | kv :: rest => pair_text kv +:+ ", " +:+ pairs_text rest
  end.

(** A key without comma and colon that [strip] leaves as it is, and a
    value without comma that the two quote strippings leave as it is. *)
Definition plain_key (k : string) : bool :=
  no_char "," k && no_char ":" k
  && bool_decide (strip (to_text k) = to_text k).

Definition plain_value (v : string) : bool :=
  no_char "," v
  && bool_decide (strip_char "'" (strip_char dquote (to_text v)) = to_text v).

(** The beginning of a relationship query, up to the second node
    pattern. *)
Definition first_hop_text (var1 label1 : string)
    (f1 : option (string * string)) (rel_ty var2 label2 : string)
    (f2 : option (string * string)) : string :=
  "MATCH " +:+ node_text var1 label1 f1 +:+ "-[:" +:+ rel_ty +:+ "]->"
  +:+ node_text var2 label2 f2.

(** The properties of the node stored under [nid]; empty when there is
    none. *)
Definition node_properties (db : GraphDatabase) (nid : value)
    : gmap string value :=
  match dict_get nid (nodes db) with
  | Some n => properties n
  | None => ∅
  end.

(** The MANUFACTURES relationships into a product, in list order. *)
Definition manufacturers (db : GraphDatabase) (product_id : value)
    : list relationship :=
  filter (fun rel => rel_to rel = product_id /\ rel_type rel = "MANUFACTURES")
         (relationships db).

(** A store with one node, created without an explicit id. *)
Definition db_synthesized : GraphDatabase :=
  (create_node init "Supplier" {[ "name" := VStr "Tannery" ]}).1.

(** A product whose factory was created without properties (its id is made
    up from the counter), with a material supplied to that factory. *)
Definition db_bare_factory : GraphDatabase :=
  let db := add_node init "Product" "P1" "Bag" in
  let db := (create_node db "Factory" ∅).1 in
  let db := add_node db "Material" "M1" "Leather" in
  let db := add_rel db "Factory_1" "P1" "MANUFACTURES" in
  add_rel db "M1" "Factory_1" "SUPPLIED_TO".

(** Every node holds its own id among its properties, as a node created
    with an explicit id does. *)
Definition ids_in_properties (db : GraphDatabase) : bool :=
  forallb (fun kv => bool_decide (properties kv.2 !! "id" = Some kv.1))
          (nodes db).



(** * Properties *)

(** ** Dictionaries *)

Section pydict_facts.
Context {K V : Type} `{EqDecision K}.
Implicit Types (k : K) (v : V) (d : list (K * V)).

Lemma dict_get_None k d : dict_get k d = None <-> k ∉ d.*1.
Proof.
  induction d as [|[k' v] d IH]; simpl.
  - split; [intros _; apply not_elem_of_nil | done].
  - case_decide as Hk; subst.
    + split; [done | intros []; left].
    + rewrite IH, not_elem_of_cons. split; [by intros; split|by intros []].
Qed.

Lemma dict_get_Some_elem k v d : dict_get k d = Some v -> (k, v) ∈ d.
Proof.
  induction d as [|[k' v'] d IH]; simpl; [done|].
  case_decide; subst.
  - intros Heq. injection Heq as <-. left.
  - intros. right. auto.
Qed.

Lemma dict_get_set_eq k v d : dict_get k (dict_set k v d) = Some v.
Proof.
  induction d as [|[k' v'] d IH]; simpl.
  - by rewrite decide_True.
  - case_decide as Hk; simpl; subst.
    + by rewrite decide_True.
    + by rewrite decide_False.
Qed.

Lemma dict_get_set_ne k k' v d :
  k ≠ k' -> dict_get k' (dict_set k v d) = dict_get k' d.
Proof.
  intros Hne. induction d as [|[k0 v0] d IH]; simpl.
  - by rewrite decide_False.
  - case_decide; simpl; subst.
    + by rewrite !decide_False.
    + case_decide; done.
Qed.

Lemma dict_set_keys_mem k v d :
  k ∈ d.*1 -> (dict_set k v d).*1 = d.*1.
Proof.
  induction d as [|[k' v'] d IH]; simpl.
  - intros H0. by apply elem_of_nil in H0.
  - intros Hin. case_decide; simpl; [done|].
    f_equal. apply IH. apply elem_of_cons in Hin as [?|?]; [by subst|done].
Qed.

Lemma dict_set_keys_fresh k v d :
  k ∉ d.*1 -> dict_set k v d = d ++ [(k, v)].
Proof.
  induction d as [|[k' v'] d IH]; simpl; [done|].
  intros Hnin. apply not_elem_of_cons in Hnin as [? ?].
  rewrite decide_False by done. f_equal. auto.
Qed.

Lemma dict_set_wf k v d : dict_wf d -> dict_wf (dict_set k v d).
Proof.
  unfold dict_wf. intros Hwf.
  destruct (decide (k ∈ d.*1)) as [Hin|Hnin].
  - by rewrite dict_set_keys_mem.
  - rewrite dict_set_keys_fresh, fmap_app by done. simpl.
    apply NoDup_app. split_and!; [done| |apply NoDup_singleton].
    intros x Hx Hx'. apply list_elem_of_singleton in Hx'. by subst.
Qed.

Lemma dict_count_fresh k d : k ∉ d.*1 -> dict_count k d = 0.
Proof.
  unfold dict_count. induction d as [|[k' v'] d IH]; simpl; [done|].
  intros Hnin. apply not_elem_of_cons in Hnin as [Hne Hnin].
  rewrite filter_cons_False by (simpl; congruence). auto.
Qed.

Lemma dict_count_wf k d :
  dict_wf d -> k ∈ d.*1 -> dict_count k d = 1.
Proof.
  unfold dict_wf. induction d as [|[k' v'] d IH]; simpl.
  - intros _ H0. by apply elem_of_nil in H0.
  - rewrite NoDup_cons. intros [Hnin Hnd] Hin.
    destruct (decide (k' = k)) as [->|Hne].
    + unfold dict_count. rewrite filter_cons_True by done. simpl.
      f_equal. by apply dict_count_fresh.
    + unfold dict_count. rewrite filter_cons_False by done.
      apply IH; [done|]. apply elem_of_cons in Hin as [?|?]; [by subst|done].
Qed.

Lemma dict_mem_true k d : dict_mem k d = true <-> k ∈ d.*1.
Proof.
  unfold dict_mem. destruct (dict_get k d) eqn:E.
  - split; [intros _|done]. apply dict_get_Some_elem in E.
    apply list_elem_of_fmap. by exists (k, v).
  - apply dict_get_None in E. split; [done|]. intros. by destruct E.
Qed.
End pydict_facts.

(** ** Creating nodes and relationships *)

Lemma create_node_wf db lbl props :
  dict_wf (nodes db) -> dict_wf (nodes (create_node db lbl props).1).
Proof. intros. simpl. by apply dict_set_wf. Qed.

Lemma create_relationship_nodes db from_id to_id rel_ty props :
  nodes (create_relationship db from_id to_id rel_ty props).1 = nodes db.
Proof. unfold create_relationship. by case_match. Qed.

Lemma db_main_wf : dict_wf (nodes db_main).
Proof.
  unfold db_main.
  destruct (create_node init "Supplier" sup001) as [db1 s] eqn:E1.
  destruct (create_node db1 "Material" mat001) as [db2 m] eqn:E2.
  rewrite create_relationship_nodes.
  change db2 with (db2, m).1. rewrite <- E2. apply create_node_wf.
  change db1 with (db1, s).1. rewrite <- E1. apply create_node_wf.
  apply NoDup_nil_2.
Qed.

(** C1. [create_relationship] with an endpoint that is not a key of the
    node table raises and leaves the store, hence its relationship list, as
    it was; with both endpoints present it succeeds and appends exactly the
    one record [{from, to, type, properties}] (an omitted [properties] is
    stored as the empty dictionary). *)
Theorem create_relationship_integrity (db : GraphDatabase)
    (from_id to_id : value) (rel_ty : string)
    (props : option (gmap string value)) :
  (dict_mem from_id (nodes db) = false \/ dict_mem to_id (nodes db) = false ->
   exists msg,
     create_relationship db from_id to_id rel_ty props
     = (db, Raise (ValueError msg)))
  /\ (dict_mem from_id (nodes db) = true ->
      dict_mem to_id (nodes db) = true ->
      exists db',
        create_relationship db from_id to_id rel_ty props = (db', Ok ())
        /\ relationships db'
           = relationships db ++ [Rel from_id to_id rel_ty (default ∅ props)]
        /\ nodes db' = nodes db).
Proof.
  unfold create_relationship. split.
  - intros [-> | ->]; simpl; [|rewrite orb_true_r]; eauto.
  - intros -> ->. simpl. eauto.
Qed.

Lemma create_relationship_integrity_witness :
  (exists msg,
     create_relationship db_main (VStr "SUP001") (VStr "MAT999") "PROVIDES" None
     = (db_main, Raise (ValueError msg)))
  /\ (exists db',
        create_relationship db_main (VStr "MAT001") (VStr "SUP001") "USED_BY"
          None = (db', Ok ())
        /\ relationships db'
           = relationships db_main
             ++ [Rel (VStr "MAT001") (VStr "SUP001") "USED_BY" ∅]
        /\ nodes db' = nodes db_main).
Proof.
  split.
  - apply (create_relationship_integrity db_main (VStr "SUP001")
             (VStr "MAT999") "PROVIDES" None).
    right. reflexivity.
  - apply (create_relationship_integrity db_main (VStr "MAT001")
             (VStr "SUP001") "USED_BY" None); reflexivity.
Defined.

(** C6. [create_node] with an explicit [id] equal to the id of an existing
    node does not fail and replaces that node: the table then holds exactly
    one entry under that id, made of the new label and the new properties
    (so a property of the old node is there only if the new properties have
    it), and every other entry is as before. *)
Theorem create_node_overwrites (db : GraphDatabase) (lbl : string)
    (props : gmap string value) (nid : value) (old : node) :
  dict_wf (nodes db) ->
  props !! "id" = Some nid ->
  dict_get nid (nodes db) = Some old ->
  exists db',
    create_node db lbl props = (db', nid)
    /\ dict_get nid (nodes db') = Some (Node lbl props)
    /\ dict_count nid (nodes db') = 1
    /\ (forall n' k, dict_get nid (nodes db') = Some n' ->
                     properties n' !! k = props !! k)
    /\ (nodes db').*1 = (nodes db).*1
    /\ (forall k, k ≠ nid -> dict_get k (nodes db') = dict_get k (nodes db))
    /\ relationships db' = relationships db.
Proof.
  intros Hwf Hid Hold. unfold create_node. rewrite Hid.
  eexists. split; [reflexivity|]. simpl.
  assert (Hin : nid ∈ (nodes db).*1).
  { apply dict_mem_true. unfold dict_mem. by rewrite Hold. }
  split_and!.
  - apply dict_get_set_eq.
  - apply dict_count_wf; [by apply dict_set_wf|].
    by rewrite dict_set_keys_mem.
  - intros n' k. rewrite dict_get_set_eq. by intros [= <-].
  - by apply dict_set_keys_mem.
  - intros k Hk. by apply dict_get_set_ne.
  - reflexivity.
Qed.

Lemma create_node_overwrites_witness :
  exists db',
    create_node db_main "Factory" {[ "id" := VStr "SUP001" ]}
    = (db', VStr "SUP001")
    /\ dict_get (VStr "SUP001") (nodes db')
       = Some (Node "Factory" {[ "id" := VStr "SUP001" ]})
    /\ dict_count (VStr "SUP001") (nodes db') = 1.
Proof.
  destruct (create_node_overwrites db_main "Factory"
              {[ "id" := VStr "SUP001" ]} (VStr "SUP001")
              (Node "Supplier" sup001))
    as (db' & H1 & H2 & H3 & _).
  - apply db_main_wf.
  - vm_compute. reflexivity.
  - vm_compute. reflexivity.
  - exists db'. auto.
Defined.

(** ** Listing nodes *)

(** C10, as the code has it.  With a non-empty label, [get_all_nodes]
    returns, for the nodes of that label in table order, records
    [{id, ...properties}]: the key [label] is there only if the node's own
    properties have it.  With no label, and also with the empty string as
    label, it returns for every node a record [{id, label, ...properties}],
    which has the key [label]. *)
Theorem get_all_nodes_label_key (db : GraphDatabase) (l : string) :
  l ≠ "" ->
  Forall2 (fun kv r =>
             r !! "label" = properties kv.2 !! "label"
             /\ r !! "id" = Some (default kv.1 (properties kv.2 !! "id"))
             /\ forall k, k ≠ "id" -> r !! k = properties kv.2 !! k)
          (filter (fun kv => label kv.2 = l) (nodes db))
          (get_all_nodes db (Some l))
  /\ Forall2 (fun kv r =>
                r !! "label"
                = Some (default (VStr (label kv.2)) (properties kv.2 !! "label"))
                /\ r !! "id" = Some (default kv.1 (properties kv.2 !! "id"))
                /\ forall k, k ≠ "id" -> k ≠ "label" ->
                             r !! k = properties kv.2 !! k)
             (nodes db) (get_all_nodes db None)
  /\ get_all_nodes db (Some "") = get_all_nodes db None.
Proof.
  intros Hl. split_and!.
  - unfold get_all_nodes. apply String.eqb_neq in Hl. rewrite Hl. simpl.
    apply Forall2_fmap_r, Forall_Forall2_diag, Forall_forall.
    intros [nid n] _. unfold node_record. simpl. split_and!.
    + rewrite lookup_union, lookup_singleton_ne by done.
      by destruct (properties n !! "label").
    + rewrite lookup_union, lookup_singleton_eq.
      by destruct (properties n !! "id").
    + intros k Hk. rewrite lookup_union, lookup_singleton_ne by done.
      by destruct (properties n !! k).
  - unfold get_all_nodes.
    apply Forall2_fmap_r, Forall_Forall2_diag, Forall_forall.
    intros [nid n] _. simpl. split_and!.
    + rewrite lookup_union, lookup_insert_eq.
      by destruct (properties n !! "label").
    + rewrite lookup_union, lookup_insert_ne, lookup_singleton_eq by done.
      by destruct (properties n !! "id").
    + intros k Hk Hk'.
      rewrite lookup_union, lookup_insert_ne, lookup_singleton_ne by done.
      by destruct (properties n !! k).
  - reflexivity.
Qed.

Lemma get_all_nodes_label_key_witness :
  Forall2 (fun kv r =>
             r !! "label" = properties kv.2 !! "label"
             /\ r !! "id" = Some (default kv.1 (properties kv.2 !! "id"))
             /\ forall k, k ≠ "id" -> r !! k = properties kv.2 !! k)
          (filter (fun kv => label kv.2 = "Supplier") (nodes db_main))
          (get_all_nodes db_main (Some "Supplier")).
Proof.
  apply (get_all_nodes_label_key db_main "Supplier"). discriminate.
Defined.

(** C10, as stated, fails for the empty string as label argument: the
    store [db_main] has no node with a property [label], and yet every
    record of [get_all_nodes db_main (Some "")] has the key [label]. *)
Lemma get_all_nodes_empty_label_counterexample :
  Forall (fun kv => properties kv.2 !! "label" = None) (nodes db_main)
  /\ length (get_all_nodes db_main (Some "")) = 2
  /\ Forall (fun r => r !! "label" ≠ None) (get_all_nodes db_main (Some "")).
Proof.
  split_and!.
  - repeat constructor.
  - reflexivity.
  - repeat constructor; vm_compute; discriminate.
Qed.

(** ** Text *)

#[local] Arguments Ascii.eqb : simpl never.

Lemma to_text_app a b : to_text (a +:+ b) = to_text a ++ to_text b.
Proof. induction a as [|c a IH]; simpl; [done|]. by rewrite IH. Qed.

Lemma of_to_text s : of_text (to_text s) = s.
Proof. apply string_of_list_ascii_of_string. Qed.

Lemma is_word_not_space c : is_word c = true -> is_space c = false.
Proof. destruct c as [[] [] [] [] [] [] [] []]; vm_compute; congruence. Qed.

Lemma is_space_not_word c : is_space c = true -> is_word c = false.
Proof.
  intros Hs. destruct (is_word c) eqn:Hw; [|done].
  apply is_word_not_space in Hw. congruence.
Qed.

(** A character of a class differs from a character outside it. *)
Lemma class_neq (p : ascii -> bool) c d :
  p c = true -> p d = false -> Ascii.eqb d c = false.
Proof. intros Hc Hd. apply Ascii.eqb_neq. intros ->. congruence. Qed.

Lemma forallb_class_neq (p : ascii -> bool) d s :
  forallb p s = true -> p d = false ->
  forallb (fun c => negb (Ascii.eqb d c)) s = true.
Proof.
  intros Hs Hd. induction s as [|c s IH]; simpl in *; [done|].
  apply andb_true_iff in Hs as [Hc Hs].
  by rewrite (class_neq p c d), IH.
Qed.

Lemma literal_app lit s : literal lit (lit ++ s) = Some s.
Proof. induction lit as [|c lit IH]; simpl; [done|]. by rewrite Ascii.eqb_refl. Qed.

Lemma literal_app_r lit s r t :
  literal lit s = Some r -> literal lit (s ++ t) = Some (r ++ t).
Proof.
  revert s. induction lit as [|c lit IH]; intros s; simpl.
  - by intros [= ->].
  - destruct s as [|d s]; [done|]. simpl. destruct (Ascii.eqb c d); [auto|done].
Qed.

(** A literal that fails on [s] fails on [s] followed by a character that
    is not one of its own. *)
Lemma literal_stop lit s x t :
  forallb (fun c => negb (Ascii.eqb c x)) lit = true ->
  literal lit s = None -> literal lit (s ++ x :: t) = None.
Proof.
  revert s. induction lit as [|c lit IH]; intros s Hx; simpl; [done|].
  simpl in Hx. apply andb_true_iff in Hx as [Hc Hx].
  destruct s as [|d s]; simpl.
  - by apply negb_true_iff in Hc as ->.
  - destruct (Ascii.eqb c d); [auto|done].
Qed.

Lemma span_app p w rest :
  forallb p w = true ->
  span p (w ++ rest) = (w ++ (span p rest).1, (span p rest).2).
Proof.
  induction w as [|c w IH]; simpl.
  - intros _. by destruct (span p rest).
  - intros Hw. apply andb_true_iff in Hw as [-> Hw].
    rewrite IH by done. done.
Qed.

Lemma span_all p w x rest :
  forallb p w = true -> p x = false -> span p (w ++ x :: rest) = (w, x :: rest).
Proof.
  intros Hw Hx. rewrite span_app by done. simpl. rewrite Hx. simpl.
  by rewrite app_nil_r.
Qed.

Lemma span_stop p s x t :
  p x = false ->
  span p (s ++ x :: t) = ((span p s).1, (span p s).2 ++ x :: t).
Proof.
  intros Hx. induction s as [|c s IH]; simpl.
  - by rewrite Hx.
  - destruct (p c); [|done]. rewrite IH. by destruct (span p s).
Qed.

#[local] Arguments literal : simpl never.
#[local] Arguments node_pattern : simpl never.
#[local] Arguments rel_pattern : simpl never.

Lemma literal_cons c lit d s :
  literal (c :: lit) (d :: s) = if Ascii.eqb c d then literal lit s else None.
Proof. reflexivity. Qed.

(** *** [re.findall] *)

Lemma findall_from_skip {G} (pat : list ascii -> option (G * list ascii)) a b :
  findall_from pat (a ++ b) (length a) = findall_from pat b 0.
Proof. induction a as [|c a IH]; simpl; [by destruct b|done]. Qed.

(** A match at the start of the text is the first result, and the scan goes
    on after it. *)
Lemma findall_match {G} (pat : list ascii -> option (G * list ascii)) a b g :
  a ≠ [] -> pat (a ++ b) = Some (g, b) ->
  findall pat (a ++ b) = g :: findall pat b.
Proof.
  intros Ha Hm. destruct a as [|c a]; [done|].
  unfold findall. simpl. simpl in Hm. rewrite Hm. f_equal.
  rewrite length_app, Nat.add_sub. apply findall_from_skip.
Qed.

(** Characters at which the pattern cannot start are passed over. *)
Lemma findall_pass {G} (pat : list ascii -> option (G * list ascii))
    (first : ascii) a b :
  (forall c s, Ascii.eqb first c = false -> pat (c :: s) = None) ->
  forallb (fun c => negb (Ascii.eqb first c)) a = true ->
  findall pat (a ++ b) = findall pat b.
Proof.
  intros Hpat. unfold findall. induction a as [|c a IH]; simpl; [done|].
  intros Ha. apply andb_true_iff in Ha as [Hc Ha].
  apply negb_true_iff in Hc. rewrite Hpat by done. auto.
Qed.

Lemma findall_nil {G} (pat : list ascii -> option (G * list ascii))
    (first : ascii) a :
  (forall c s, Ascii.eqb first c = false -> pat (c :: s) = None) ->
  forallb (fun c => negb (Ascii.eqb first c)) a = true ->
  findall pat a = [].
Proof.
  intros Hpat Ha. rewrite <- (app_nil_r a).
  by rewrite (findall_pass pat first).
Qed.

Lemma node_pattern_first c s :
  Ascii.eqb "(" c = false -> node_pattern (c :: s) = None.
Proof. intros Hc. unfold node_pattern. by rewrite literal_cons, Hc. Qed.

Lemma rel_pattern_first c s :
  Ascii.eqb "-" c = false -> rel_pattern (c :: s) = None.
Proof. intros Hc. unfold rel_pattern. by rewrite literal_cons, Hc. Qed.

(** A relationship arrow cannot run across a closing brace. *)
Lemma rel_pattern_stop s t :
  rel_pattern s = None -> rel_pattern (s ++ "}"%char :: t) = None.
Proof.
  unfold rel_pattern. intros Hs.
  destruct (literal ["-"; "["; ":"]%char s) as [s1|] eqn:E1; simpl in Hs.
  - rewrite (literal_app_r _ _ _ _ E1). simpl.
    rewrite span_stop by done.
    destruct (span is_word s1) as [ty s2]. simpl.
    destruct (is_nil ty); [done|].
    destruct (literal ["]"; "-"; ">"]%char s2) eqn:E2; [done|].
    by rewrite literal_stop.
  - by rewrite literal_stop.
Qed.

(** Text without an arrow, followed by a closing brace, adds no match. *)
Lemma findall_rel_pattern_stop a t :
  findall rel_pattern a = [] ->
  findall rel_pattern (a ++ "}"%char :: t) = findall rel_pattern t.
Proof.
  unfold findall. induction a as [|c a IH]; simpl.
  - done.
  - destruct (rel_pattern (c :: a)) as [[g r]|] eqn:E; [done|].
    intros Ha. apply (rel_pattern_stop _ t) in E.
    rewrite <- app_comm_cons in E. rewrite E. auto.
Qed.

(** *** The patterns on the text of the query shapes *)

Lemma literal_1 c s : literal [c] (c :: s) = Some s.
Proof. apply (literal_app [c]). Qed.

Lemma literal_2 c d s : literal [c; d] (c :: d :: s) = Some s.
Proof. apply (literal_app [c; d]). Qed.

Lemma literal_3 c d e s : literal [c; d; e] (c :: d :: e :: s) = Some s.
Proof. apply (literal_app [c; d; e]). Qed.

Lemma is_identifier_spec s :
  is_identifier s = true -> to_text s ≠ [] /\ forallb is_word (to_text s) = true.
Proof.
  unfold is_identifier. intros H. apply andb_true_iff in H as [H1 H2].
  split; [|done]. by destruct (to_text s).
Qed.

Lemma is_nil_false {A} (l : list A) : l ≠ [] -> is_nil l = false.
Proof. by destruct l. Qed.

(** The filter part of a node pattern, followed by the closing
    parenthesis, does not start with a word character. *)
Lemma span_word_filter_text f rest :
  filter_ok f = true ->
  span is_word (to_text (filter_text f) ++ ")"%char :: rest)
  = ([], to_text (filter_text f) ++ ")"%char :: rest).
Proof.
  destruct f as [[ws body]|]; simpl; [|done].
  intros Hf. apply andb_true_iff in Hf as [Hf _].
  apply andb_true_iff in Hf as [Hws _].
  rewrite to_text_app. destruct (to_text ws) as [|c ws'] eqn:E; [done|].
  simpl in *. apply andb_true_iff in Hws as [Hc _].
  by rewrite (is_space_not_word c).
Qed.

Lemma node_pattern_tail_filter_text f rest :
  filter_ok f = true ->
  node_pattern_tail (to_text (filter_text f) ++ ")"%char :: rest)
  = Some (to_text (filter_body f), rest).
Proof.
  unfold node_pattern_tail. destruct f as [[ws body]|]; simpl.
  - intros Hf. apply andb_true_iff in Hf as [Hf Hbody].
    apply andb_true_iff in Hf as [Hws Hne].
    rewrite !to_text_app, <- !app_assoc. simpl.
    rewrite span_all by done. rewrite literal_1. simpl.
    rewrite span_all by (done || by rewrite Ascii.eqb_refl).
    apply negb_true_iff in Hne. by rewrite Hne, literal_2.
  - done.
Qed.

Lemma node_pattern_node_text v l f rest :
  is_identifier v = true -> is_identifier l = true -> filter_ok f = true ->
  node_pattern (to_text (node_text v l f) ++ rest)
  = Some ((to_text v, to_text l, to_text (filter_body f)), rest).
Proof.
  intros [Hv1 Hv2]%is_identifier_spec [Hl1 Hl2]%is_identifier_spec Hf.
  unfold node_text. rewrite !to_text_app, <- !app_assoc. simpl.
  unfold node_pattern. rewrite literal_1. simpl.
  rewrite span_all by done. rewrite is_nil_false by done.
  rewrite literal_1. simpl.
  rewrite span_app, span_word_filter_text by done. simpl. rewrite app_nil_r.
  rewrite is_nil_false by done.
  by rewrite node_pattern_tail_filter_text.
Qed.

Lemma rel_pattern_arrow ty rest :
  is_identifier ty = true ->
  rel_pattern ((to_text "-[:" ++ to_text ty ++ to_text "]->") ++ rest)
  = Some (to_text ty, rest).
Proof.
  intros [H1 H2]%is_identifier_spec.
  rewrite <- !app_assoc. simpl.
  unfold rel_pattern. rewrite literal_3. simpl.
  rewrite span_all by done. rewrite is_nil_false by done.
  by rewrite literal_3.
Qed.

Lemma node_text_not_nil v l f : to_text (node_text v l f) ≠ [].
Proof. unfold node_text. by rewrite to_text_app. Qed.

Lemma forallb_word_no_paren s :
  forallb is_word s = true ->
  forallb (fun c => negb (Ascii.eqb "(" c)) s = true.
Proof. intros. by apply (forallb_class_neq is_word). Qed.

Lemma forallb_word_no_dash s :
  forallb is_word s = true ->
  forallb (fun c => negb (Ascii.eqb "-" c)) s = true.
Proof. intros. by apply (forallb_class_neq is_word). Qed.

Lemma forallb_space_no_dash s :
  forallb is_space s = true ->
  forallb (fun c => negb (Ascii.eqb "-" c)) s = true.
Proof. intros. by apply (forallb_class_neq is_space). Qed.

Lemma findall_node_relationship_query v1 l1 f1 ty v2 l2 f2 :
  is_identifier v1 = true -> is_identifier l1 = true ->
  is_identifier ty = true ->
  is_identifier v2 = true -> is_identifier l2 = true ->
  filter_ok f1 = true -> filter_ok f2 = true ->
  findall node_pattern (to_text (relationship_query v1 l1 f1 ty v2 l2 f2))
  = [(to_text v1, to_text l1, to_text (filter_body f1));
     (to_text v2, to_text l2, to_text (filter_body f2))].
Proof.
  intros Hv1 Hl1 Hty Hv2 Hl2 Hf1 Hf2.
  pose proof (is_identifier_spec _ Hv1) as [_ Wv1].
  pose proof (is_identifier_spec _ Hty) as [_ Wty].
  pose proof (is_identifier_spec _ Hv2) as [_ Wv2].
  unfold relationship_query. rewrite !to_text_app.
  rewrite (findall_pass node_pattern "(" (to_text "MATCH "))
    by (apply node_pattern_first || reflexivity).
  rewrite (findall_match node_pattern _ _ _ (node_text_not_nil v1 l1 f1)
             (node_pattern_node_text v1 l1 f1 _ Hv1 Hl1 Hf1)).
  rewrite (findall_pass node_pattern "(" (to_text "-[:"))
    by (apply node_pattern_first || reflexivity).
  rewrite (findall_pass node_pattern "(" (to_text ty))
    by (apply node_pattern_first || by apply forallb_word_no_paren).
  rewrite (findall_pass node_pattern "(" (to_text "]->"))
    by (apply node_pattern_first || reflexivity).
  rewrite (findall_match node_pattern _ _ _ (node_text_not_nil v2 l2 f2)
             (node_pattern_node_text v2 l2 f2 _ Hv2 Hl2 Hf2)).
  rewrite (findall_pass node_pattern "(" (to_text " RETURN "))
    by (apply node_pattern_first || reflexivity).
  rewrite (findall_pass node_pattern "(" (to_text v1))
    by (apply node_pattern_first || by apply forallb_word_no_paren).
  rewrite (findall_pass node_pattern "(" (to_text ", "))
    by (apply node_pattern_first || reflexivity).
  rewrite (findall_nil node_pattern "(" (to_text v2))
    by (apply node_pattern_first || by apply forallb_word_no_paren).
  reflexivity.
Qed.

(** The arrows found in the text of a node pattern are those of its filter
    text. *)
Lemma findall_rel_node_text v l f rest :
  is_identifier v = true -> is_identifier l = true -> filter_ok f = true ->
  findall rel_pattern (to_text (filter_body f)) = [] ->
  findall rel_pattern (to_text (node_text v l f) ++ rest)
  = findall rel_pattern rest.
Proof.
  intros [_ Wv]%is_identifier_spec [_ Wl]%is_identifier_spec Hf Hbody.
  unfold node_text. rewrite !to_text_app, <- !app_assoc.
  rewrite (findall_pass rel_pattern "-" (to_text "("))
    by (apply rel_pattern_first || reflexivity).
  rewrite (findall_pass rel_pattern "-" (to_text v))
    by (apply rel_pattern_first || by apply forallb_word_no_dash).
  rewrite (findall_pass rel_pattern "-" (to_text ":"))
    by (apply rel_pattern_first || reflexivity).
  rewrite (findall_pass rel_pattern "-" (to_text l))
    by (apply rel_pattern_first || by apply forallb_word_no_dash).
  destruct f as [[ws body]|]; simpl in *.
  - apply andb_true_iff in Hf as [Hf _]. apply andb_true_iff in Hf as [Hws _].
    rewrite !to_text_app, <- !app_assoc.
    rewrite (findall_pass rel_pattern "-" (to_text ws))
      by (apply rel_pattern_first || by apply forallb_space_no_dash).
    rewrite (findall_pass rel_pattern "-" (to_text "{"))
      by (apply rel_pattern_first || reflexivity).
    change (to_text "}" ++ ?r) with ("}"%char :: r).
    rewrite findall_rel_pattern_stop by done.
    by apply (findall_pass rel_pattern "-" [")"%char]);
      [apply rel_pattern_first|].
  - by apply (findall_pass rel_pattern "-" [")"%char]);
      [apply rel_pattern_first|].
Qed.

Lemma findall_rel_relationship_query v1 l1 f1 ty v2 l2 f2 :
  is_identifier v1 = true -> is_identifier l1 = true ->
  is_identifier ty = true -> filter_ok f1 = true ->
  findall rel_pattern (to_text (filter_body f1)) = [] ->
  exists more,
    findall rel_pattern (to_text (relationship_query v1 l1 f1 ty v2 l2 f2))
    = to_text ty :: more.
Proof.
  intros Hv1 Hl1 Hty Hf1 Hbody.
  unfold relationship_query. rewrite !to_text_app.
  rewrite (findall_pass rel_pattern "-" (to_text "MATCH "))
    by (apply rel_pattern_first || reflexivity).
  rewrite findall_rel_node_text by done.
  rewrite (app_assoc (to_text ty)), (app_assoc (to_text "-[:")).
  erewrite findall_match; [eauto|done|by apply rel_pattern_arrow].
Qed.

(** *** [strip] and [startswith] on the text of the query shapes *)

Lemma lstrip_by_head p s :
  (forall c, head s = Some c -> p c = false) -> lstrip_by p s = s.
Proof. destruct s as [|c s]; simpl; [done|]. intros H. by rewrite H. Qed.

Lemma strip_by_id p s :
  (forall c, head s = Some c -> p c = false) ->
  (forall d, last s = Some d -> p d = false) ->
  strip_by p s = s.
Proof.
  intros Hh Hl. unfold strip_by, rstrip_by.
  rewrite (lstrip_by_head p s) by done.
  rewrite lstrip_by_head; [apply reverse_involutive|].
  intros d. rewrite head_reverse. apply Hl.
Qed.

Lemma strip_ends_identifier a w :
  (forall c, head (a ++ to_text w) = Some c -> is_space c = false) ->
  is_identifier w = true ->
  strip (a ++ to_text w) = a ++ to_text w.
Proof.
  intros Hh [Hne Hw]%is_identifier_spec. apply strip_by_id; [done|].
  intros d. rewrite last_app.
  destruct (last (to_text w)) as [d'|] eqn:E.
  - intros [= <-]. apply is_word_not_space.
    apply last_Some_elem_of, list_elem_of_In in E.
    by apply (proj1 (forallb_forall _ _) Hw).
  - by apply last_None in E.
Qed.

Lemma strip_relationship_query v1 l1 f1 ty v2 l2 f2 :
  is_identifier v2 = true ->
  strip (to_text (relationship_query v1 l1 f1 ty v2 l2 f2))
  = to_text (relationship_query v1 l1 f1 ty v2 l2 f2).
Proof.
  intros Hv2. unfold relationship_query. rewrite !to_text_app, !app_assoc.
  apply strip_ends_identifier; [|done].
  rewrite <- !app_assoc. simpl. by intros c [= <-].
Qed.

Lemma strip_single_node_query v l f :
  is_identifier v = true ->
  strip (to_text (single_node_query v l f)) = to_text (single_node_query v l f).
Proof.
  intros Hv. unfold single_node_query. rewrite !to_text_app, !app_assoc.
  apply strip_ends_identifier; [|done].
  rewrite <- !app_assoc. simpl. by intros c [= <-].
Qed.

(** *** Relationship queries *)

Lemma execute_relationship_query db v1 l1 f1 ty v2 l2 f2 :
  is_identifier v1 = true -> is_identifier l1 = true ->
  is_identifier ty = true ->
  is_identifier v2 = true -> is_identifier l2 = true ->
  filter_ok f1 = true -> filter_ok f2 = true ->
  findall rel_pattern (to_text (filter_body f1)) = [] ->
  execute_cypher db (relationship_query v1 l1 f1 ty v2 l2 f2)
  = Ok (relationships db ≫= match_rel_row db v1 l1 v2 l2 ty).
Proof.
  intros Hv1 Hl1 Hty Hv2 Hl2 Hf1 Hf2 Hbody.
  unfold execute_cypher. rewrite strip_relationship_query by done.
  replace (startswith _ (points (to_text "MATCH"))) with true
    by (unfold relationship_query; by rewrite to_text_app).
  unfold _execute_match.
  rewrite findall_node_relationship_query by done.
  destruct (findall_rel_relationship_query v1 l1 f1 ty v2 l2 f2)
    as [more ->]; [done..|].
  simpl. by rewrite !of_to_text.
Qed.

Lemma match_rel_rows db v1 l1 v2 l2 ty rels :
  Forall2
    (fun rel row =>
       exists from_node to_node,
         dict_get (rel_from rel) (nodes db) = Some from_node
         /\ dict_get (rel_to rel) (nodes db) = Some to_node
         /\ row = <[ "relationship" := BStr ty ]>
                    (<[ v2 := BRec (node_record (rel_to rel) to_node) ]>
                       {[ v1 := BRec (node_record (rel_from rel) from_node) ]}))
    (filter (fun rel => rel_type rel = ty
                        /\ node_label db (rel_from rel) = Some l1
                        /\ node_label db (rel_to rel) = Some l2) rels)
    (rels ≫= match_rel_row db v1 l1 v2 l2 ty).
Proof.
  induction rels as [|rel rels IH]; [constructor|].
  rewrite bind_cons, filter_cons. unfold match_rel_row at 1, node_label.
  destruct (String.eqb_spec (rel_type rel) ty) as [Hty|Hty]; simpl.
  - destruct (dict_get (rel_from rel) (nodes db)) as [fn|] eqn:Ef; simpl;
      [|by rewrite decide_False by (by intros (_ & ? & _))].
    destruct (dict_get (rel_to rel) (nodes db)) as [tn|] eqn:Et; simpl;
      [|by rewrite decide_False by (by intros (_ & _ & ?))].
    destruct (String.eqb_spec (label fn) l1) as [H1|H1]; simpl;
      [|by rewrite decide_False by (intros (_ & [= ?] & _); done)].
    destruct (String.eqb_spec (label tn) l2) as [H2|H2]; simpl;
      [|by rewrite decide_False by (intros (_ & _ & [= ?]); done)].
    rewrite decide_True by (by subst). constructor; [|done].
    exists fn, tn. by rewrite Hty.
  - by rewrite decide_False by (by intros [? _]).
Qed.

(** X17.  A query
    [MATCH (var1:Label1 f1)-[:RELTYPE]->(var2:Label2 f2) RETURN var1, var2],
    where the names are identifiers and each of [f1], [f2] is absent or an
    inline filter [{...}] with a non-empty text without closing brace,
    returns one row
    [{var1: {id, ...fromProps}, var2: {id, ...toProps}, relationship: RELTYPE}]
    per relationship of type [RELTYPE] whose source node has label [Label1]
    and whose target node has label [Label2], in the order of the
    relationship list; the filters are not applied, and the rows are those
    of the query without filters.  This holds when the text of the first
    filter contains no arrow [-[:T]->]: the type of the query is the first
    arrow found anywhere in its text. *)
Theorem relationship_query_rows (db : GraphDatabase)
    (var1 label1 : string) (f1 : option (string * string))
    (rel_ty var2 label2 : string) (f2 : option (string * string)) :
  is_identifier var1 = true -> is_identifier label1 = true ->
  is_identifier rel_ty = true ->
  is_identifier var2 = true -> is_identifier label2 = true ->
  filter_ok f1 = true -> filter_ok f2 = true ->
  findall rel_pattern (to_text (filter_body f1)) = [] ->
  exists rows,
    execute_cypher db (relationship_query var1 label1 f1 rel_ty var2 label2 f2)
    = Ok rows
    /\ Forall2
         (fun rel row =>
            exists from_node to_node,
              dict_get (rel_from rel) (nodes db) = Some from_node
              /\ dict_get (rel_to rel) (nodes db) = Some to_node
              /\ row = <[ "relationship" := BStr rel_ty ]>
                         (<[ var2 := BRec (node_record (rel_to rel) to_node) ]>
                            {[ var1 :=
                                 BRec (node_record (rel_from rel) from_node) ]}))
         (filter (fun rel => rel_type rel = rel_ty
                             /\ node_label db (rel_from rel) = Some label1
                             /\ node_label db (rel_to rel) = Some label2)
                 (relationships db))
         rows
    /\ execute_cypher db
         (relationship_query var1 label1 None rel_ty var2 label2 None)
       = Ok rows.
Proof.
  intros Hv1 Hl1 Hty Hv2 Hl2 Hf1 Hf2 Hbody.
  exists (relationships db ≫= match_rel_row db var1 label1 var2 label2 rel_ty).
  split_and!.
  - by apply execute_relationship_query.
  - apply match_rel_rows.
  - by apply execute_relationship_query.
Qed.

Lemma relationship_query_rows_witness :
  exists rows,
    execute_cypher db_main
      (relationship_query "s" "Supplier" name_filter "PROVIDES" "m" "Material"
         None)
    = Ok rows
    /\ length rows = 1
    /\ execute_cypher db_main
         (relationship_query "s" "Supplier" None "PROVIDES" "m" "Material" None)
       = Ok rows.
Proof.
  destruct (relationship_query_rows db_main "s" "Supplier" name_filter
              "PROVIDES" "m" "Material" None)
    as (rows & H1 & H2 & H3); try reflexivity.
  exists rows. split_and!; [done| |done].
  apply Forall2_length in H2. rewrite <- H2. reflexivity.
Defined.

(** C4 at two filters on the first node pattern of the query
    [MATCH (s:Supplier f)-[:PROVIDES]->(m:Material) RETURN s, m] over the
    store [db_main].  Without a filter, and with a filter on the name, the
    query returns the one PROVIDES row.  With a filter whose quoted value
    holds an arrow, the relationship type is read from the filter text,
    and with a filter whose quoted value holds a closing brace the first
    node pattern is not recognised: both queries return no row. *)
Theorem relationship_query_quoted_filter :
  execute_cypher db_main
    (relationship_query "s" "Supplier" None "PROVIDES" "m" "Material" None)
  = Ok [ <[ "relationship" := BStr "PROVIDES" ]>
           (<[ "m" := BRec mat001 ]> {[ "s" := BRec sup001 ]}) ]
  /\ execute_cypher db_main
       (relationship_query "s" "Supplier" name_filter "PROVIDES" "m"
          "Material" None)
     = Ok [ <[ "relationship" := BStr "PROVIDES" ]>
              (<[ "m" := BRec mat001 ]> {[ "s" := BRec sup001 ]}) ]
  /\ filter_body arrow_filter = "name: " +:+ quoted "-[:SUPPLIED_TO]->"
  /\ execute_cypher db_main
       (relationship_query "s" "Supplier" arrow_filter "PROVIDES" "m"
          "Material" None)
     = Ok []
  /\ filter_body brace_filter = "name: " +:+ quoted "a}b"
  /\ execute_cypher db_main
       (relationship_query "s" "Supplier" brace_filter "PROVIDES" "m"
          "Material" None)
     = Ok [].
Proof. split_and!; vm_compute; reflexivity. Qed.

(** ** Fail-open queries *)

Lemma filter_res_ok {A} (f : A -> res bool) (l : list A) :
  Forall (fun x => exists b, f x = Ok b) l -> exists r, filter_res f l = Ok r.
Proof.
  induction 1 as [|x l [b Hb] _ [r Hr]]; simpl; [by eexists|].
  rewrite Hb. simpl. rewrite Hr. simpl. by eexists.
Qed.

Lemma match_single_node_ok db g :
  exists rows, match_single_node db [g] = Ok rows.
Proof.
  destruct g as [[var lbl] props]. unfold match_single_node. simpl.
  destruct (negb (String.eqb props "")); [|by eexists].
  apply filter_res_ok, Forall_fmap, Forall_forall. intros [nid n] _. simpl.
  unfold subscript. rewrite lookup_singleton_eq. simpl. by eexists.
Qed.

Lemma _execute_match_ok db query :
  exists rows, _execute_match db query = Ok rows.
Proof.
  unfold _execute_match.
  destruct (_ <$> findall node_pattern query) as [|g1 [|g2 nm]];
    destruct (of_text <$> findall rel_pattern query) as [|r rm]; simpl;
    try by eexists.
  - apply match_single_node_ok.
  - destruct g1 as [[??]?], g2 as [[??]?]. by eexists.
Qed.

(** C3, as the code has it.  [execute_cypher] never raises.  It returns the
    empty list for every text that, stripped and in upper case, begins with
    none of MATCH, CREATE and RETURN (the text [bananas] is one), and for
    every text that begins with MATCH and holds no node pattern
    [(var:Label)], or one node pattern and an arrow, or several node
    patterns and no arrow.  A text that begins with CREATE returns the one
    row [{result: Created}] and a text that begins with RETURN the one row
    [{result: OK}]. *)
Theorem execute_cypher_fail_open (db : GraphDatabase) (query : string) :
  (exists rows, execute_cypher db query = Ok rows)
  /\ (startswith (upper (strip (to_text query))) (points (to_text "MATCH"))
      = false ->
      startswith (upper (strip (to_text query))) (points (to_text "CREATE"))
      = false ->
      startswith (upper (strip (to_text query))) (points (to_text "RETURN"))
      = false ->
      execute_cypher db query = Ok [])
  /\ (startswith (upper (strip (to_text query))) (points (to_text "MATCH"))
      = true ->
      findall node_pattern (strip (to_text query)) = [] ->
      execute_cypher db query = Ok [])
  /\ (startswith (upper (strip (to_text query))) (points (to_text "MATCH"))
      = true ->
      length (findall node_pattern (strip (to_text query))) = 1 ->
      findall rel_pattern (strip (to_text query)) ≠ [] ->
      execute_cypher db query = Ok [])
  /\ (startswith (upper (strip (to_text query))) (points (to_text "MATCH"))
      = true ->
      2 <= length (findall node_pattern (strip (to_text query))) ->
      findall rel_pattern (strip (to_text query)) = [] ->
      execute_cypher db query = Ok [])
  /\ (startswith (upper (strip (to_text query))) (points (to_text "MATCH"))
      = false ->
      startswith (upper (strip (to_text query))) (points (to_text "CREATE"))
      = true ->
      execute_cypher db query = Ok [ {[ "result" := BStr "Created" ]} ])
  /\ (startswith (upper (strip (to_text query))) (points (to_text "MATCH"))
      = false ->
      startswith (upper (strip (to_text query))) (points (to_text "CREATE"))
      = false ->
      startswith (upper (strip (to_text query))) (points (to_text "RETURN"))
      = true ->
      execute_cypher db query = Ok [ {[ "result" := BStr "OK" ]} ])
  /\ execute_cypher db "bananas" = Ok [].
Proof.
  unfold execute_cypher. split_and!.
  - destruct (startswith _ (points (to_text "MATCH"))); [apply _execute_match_ok|].
    destruct (startswith _ (points (to_text "CREATE"))); [by eexists|].
    destruct (startswith _ (points (to_text "RETURN"))); by eexists.
  - by intros -> -> ->.
  - intros -> Hn. unfold _execute_match. by rewrite Hn.
  - intros -> Hn Hr. unfold _execute_match.
    destruct (findall node_pattern _) as [|g1 [|g2 nm]]; [done| |done].
    by destruct (findall rel_pattern _).
  - intros -> Hn Hr. unfold _execute_match. rewrite Hr.
    destruct (findall node_pattern _) as [|g1 [|g2 nm]]; simpl in *;
      [done|lia|done].
  - by intros -> ->.
  - by intros -> -> ->.
  - reflexivity.
Qed.

Lemma execute_cypher_fail_open_witness :
  (exists rows, execute_cypher db_main "MATCH bananas" = Ok rows)
  /\ execute_cypher db_main "  select * from nodes " = Ok []
  /\ execute_cypher db_main "MATCH bananas" = Ok []
  /\ execute_cypher db_main "bananas" = Ok [].
Proof.
  split_and!.
  - apply (execute_cypher_fail_open db_main "MATCH bananas").
  - apply (execute_cypher_fail_open db_main "  select * from nodes ");
      reflexivity.
  - apply (execute_cypher_fail_open db_main "MATCH bananas"); reflexivity.
  - apply (execute_cypher_fail_open db_main "bananas").
Defined.

(** C3, as stated, fails: the text [CREATE (n:Foo)] has neither of the two
    query shapes, and the result is not the empty list. *)
Lemma execute_cypher_create_counterexample :
  (forall var lbl f, single_node_query var lbl f ≠ "CREATE (n:Foo)")
  /\ (forall var1 label1 f1 rel_ty var2 label2 f2,
        relationship_query var1 label1 f1 rel_ty var2 label2 f2
        ≠ "CREATE (n:Foo)")
  /\ execute_cypher init "CREATE (n:Foo)"
     = Ok [ {[ "result" := BStr "Created" ]} ].
Proof. split_and!; [by intros ???|by intros ???????|reflexivity]. Qed.

(** ** Single-node queries *)

Lemma findall_node_single_node_query v l f :
  is_identifier v = true -> is_identifier l = true -> filter_ok f = true ->
  findall node_pattern (to_text (single_node_query v l f))
  = [(to_text v, to_text l, to_text (filter_body f))].
Proof.
  intros Hv Hl Hf. pose proof (is_identifier_spec _ Hv) as [_ Wv].
  unfold single_node_query. rewrite !to_text_app.
  rewrite (findall_pass node_pattern "(" (to_text "MATCH "))
    by (apply node_pattern_first || reflexivity).
  rewrite (findall_match node_pattern _ _ _ (node_text_not_nil v l f)
             (node_pattern_node_text v l f _ Hv Hl Hf)).
  rewrite (findall_pass node_pattern "(" (to_text " RETURN "))
    by (apply node_pattern_first || reflexivity).
  by rewrite (findall_nil node_pattern "(" (to_text v))
    by (apply node_pattern_first || by apply forallb_word_no_paren).
Qed.

Lemma findall_rel_single_node_query v l f :
  is_identifier v = true -> is_identifier l = true -> filter_ok f = true ->
  findall rel_pattern (to_text (filter_body f)) = [] ->
  findall rel_pattern (to_text (single_node_query v l f)) = [].
Proof.
  intros Hv Hl Hf Hbody. pose proof (is_identifier_spec _ Hv) as [_ Wv].
  unfold single_node_query. rewrite !to_text_app.
  rewrite (findall_pass rel_pattern "-" (to_text "MATCH "))
    by (apply rel_pattern_first || reflexivity).
  rewrite findall_rel_node_text by done.
  rewrite (findall_pass rel_pattern "-" (to_text " RETURN "))
    by (apply rel_pattern_first || reflexivity).
  by rewrite (findall_nil rel_pattern "-" (to_text v))
    by (apply rel_pattern_first || by apply forallb_word_no_dash).
Qed.

Lemma subscript_singleton var r : subscript {[ var := BRec r ]} var = Ok r.
Proof. unfold subscript. by rewrite lookup_singleton_eq. Qed.

Lemma filter_res_rows var prop_filters (l : list (value * node)) :
  filter_res
    (fun n : gmap string bval => r ← subscript n var; Ok (passes prop_filters r))
    ((fun kv => {[ var := BRec (node_record kv.1 kv.2) ]}) <$> l)
  = Ok ((fun kv => {[ var := BRec (node_record kv.1 kv.2) ]})
          <$> filter (fun kv => passes prop_filters (node_record kv.1 kv.2) = true)
                     l).
Proof.
  induction l as [|[nid n] l IH]; [done|].
  rewrite fmap_cons, filter_cons. simpl.
  rewrite subscript_singleton. simpl. rewrite IH. simpl.
  by destruct (passes prop_filters (node_record nid n)).
Qed.

Lemma filter_all {A} (P : A -> Prop) `{forall x, Decision (P x)} (l : list A) :
  (forall x, P x) -> filter P l = l.
Proof.
  intros HP. induction l as [|x l IH]; [done|].
  by rewrite filter_cons_True, IH.
Qed.

Lemma filter_body_not_empty f :
  filter_ok f = true -> f ≠ None -> String.eqb (filter_body f) "" = false.
Proof.
  destruct f as [[ws body]|]; [|done]. simpl. intros Hf _.
  apply andb_true_iff in Hf as [Hf _]. apply andb_true_iff in Hf as [_ Hne].
  by destruct body.
Qed.

(** The single-node query returns, in table order, one row per node of the
    label whose flattened record passes the filters that
    [_parse_properties] reads in the filter text. *)
Lemma execute_single_node_query db v l f :
  is_identifier v = true -> is_identifier l = true -> filter_ok f = true ->
  findall rel_pattern (to_text (filter_body f)) = [] ->
  execute_cypher db (single_node_query v l f)
  = Ok ((fun kv => {[ v := BRec (node_record kv.1 kv.2) ]})
          <$> filter (fun kv =>
                        passes (_parse_properties (to_text (filter_body f)))
                               (node_record kv.1 kv.2) = true)
                (filter (fun kv => label kv.2 = l) (nodes db))).
Proof.
  intros Hv Hl Hf Hbody.
  unfold execute_cypher. rewrite strip_single_node_query by done.
  replace (startswith _ (points (to_text "MATCH"))) with true
    by (unfold single_node_query; by rewrite to_text_app).
  unfold _execute_match.
  rewrite findall_node_single_node_query, findall_rel_single_node_query by done.
  simpl. unfold match_single_node. simpl. rewrite !of_to_text.
  destruct f as [[ws body]|].
  - rewrite filter_body_not_empty by done. simpl. apply filter_res_rows.
  - simpl. f_equal. f_equal. symmetry. by apply filter_all.
Qed.

(** C5 at the filter of the specification's own example.  The store
    [db_main] has the supplier SUP001, whose [location] is the string
    [Florence, Italy]; the query with the inline filter
    [{location: (that string, quoted)}] returns no row, because
    [_parse_properties] cuts the filter text at the comma inside the
    quoted value and reads the filter [location = Florence]. *)
Theorem single_node_query_comma_value :
  dict_get (VStr "SUP001") (nodes db_main) = Some (Node "Supplier" sup001)
  /\ sup001 !! "location" = Some (VStr "Florence, Italy")
  /\ filter_body florence_filter
     = "location: " +:+ quoted "Florence, Italy"
  /\ _parse_properties (to_text (filter_body florence_filter))
     = {[ "location" := "Florence" ]}
  /\ execute_cypher db_main (single_node_query "s" "Supplier" florence_filter)
     = Ok []
  /\ execute_cypher db_main (single_node_query "s" "Supplier" None)
     = Ok [ {[ "s" := BRec sup001 ]} ].
Proof. split_and!; vm_compute; reflexivity. Qed.

(** ** The provenance trace *)

Lemma foldl_invariant {A B} (P : A -> Prop) (f : A -> B -> A) (l : list B) a :
  (forall a b, P a -> P (f a b)) -> P a -> P (foldl f a l).
Proof. intros Hf. revert a. induction l as [|b l IH]; simpl; auto. Qed.

(** Without a MANUFACTURES relationship into the product, the trace of an
    existing product has no factory and three empty lists. *)
Lemma trace_no_manufacturer db product_id product_node :
  dict_get product_id (nodes db) = Some product_node ->
  Forall (fun rel => ~ (rel_to rel = product_id
                        /\ rel_type rel = "MANUFACTURES"))
         (relationships db) ->
  trace_supply_chain db product_id
  = {[ "product" := TProps (properties product_node);
       "factory" := TNone;
       "materials" := TMaterials [];
       "suppliers" := TPropsList [];
       "certifications" := TPropsList [] ]}.
Proof.
  intros Hp Hnone. unfold trace_supply_chain. rewrite Hp.
  assert (find_factory db product_id = (None, [])) as ->; [|done].
  unfold find_factory. generalize (nodes db). intros ns.
  induction Hnone as [|rel rels Hrel _ IH]; simpl; [done|].
  destruct (bool_decide_reflect (rel_to rel = product_id)) as [Hto|]; simpl;
    [|done].
  destruct (String.eqb_spec (rel_type rel) "MANUFACTURES"); [|done].
  by destruct Hrel.
Qed.

(** C2 at a product with two manufacturers.  The loop that leaves at the
    first MANUFACTURES relationship gives F1, and the materials and
    suppliers are those of F1; the loop that fills [factory] and
    [certifications] has no [break]: the factory of the trace is F2, the
    last manufacturer, and the certifications are those of F1 and F2. *)
Theorem trace_two_manufacturers :
  first_manufacturer (relationships db_two_factories) (VStr "P1")
  = Some (VStr "F1")
  /\ trace_supply_chain db_two_factories (VStr "P1")
     = {[ "product" := TProps (props_of "P1" "Bag");
          "factory" := TProps (props_of "F2" "Second factory");
          "materials" :=
            TMaterials
              [ <[ "suppliers" := MSuppliers [props_of "S1" "Tannery"] ]>
                  (MVal <$> props_of "M1" "Leather") ];
          "suppliers" := TPropsList [props_of "S1" "Tannery"];
          "certifications" :=
            TPropsList [props_of "C1" "ISO 9001"; props_of "C2" "ISO 14001"] ]}.
Proof. split; vm_compute; reflexivity. Qed.

(** *** The deduplicated supplier list *)

Lemma unique_suppliers_sublist seen l :
  sublist (unique_suppliers seen l) l.
Proof.
  revert seen. induction l as [|s l IH]; intros seen; simpl; [constructor|].
  case_decide; [apply sublist_cons | apply sublist_skip]; apply IH.
Qed.

Lemma unique_suppliers_ids seen l x :
  x ∈ unique_suppliers seen l -> x !! "id" ∉ seen.
Proof.
  revert seen. induction l as [|s l IH]; intros seen; simpl.
  - intros H. by apply elem_of_nil in H.
  - case_decide as Hs; [apply IH|].
    intros [->|Hx]%elem_of_cons; [done|].
    apply IH in Hx. set_solver.
Qed.

Lemma unique_suppliers_NoDup seen l :
  NoDup ((fun s : gmap string value => s !! "id") <$> unique_suppliers seen l).
Proof.
  revert seen. induction l as [|s l IH]; intros seen; simpl; [constructor|].
  case_decide as Hs; [apply IH|].
  rewrite fmap_cons. constructor; [|apply IH].
  intros (x & Hid & Hx)%list_elem_of_fmap.
  apply unique_suppliers_ids in Hx. set_solver.
Qed.

Lemma unique_suppliers_covers seen l s :
  s ∈ l -> s !! "id" ∉ seen ->
  exists s', s' ∈ unique_suppliers seen l /\ s' !! "id" = s !! "id".
Proof.
  revert seen. induction l as [|s0 l IH]; intros seen Hs Hseen; simpl.
  - by apply elem_of_nil in Hs.
  - apply elem_of_cons in Hs as [->|Hs].
    + rewrite decide_False by done. exists s0. split; [left|done].
    + case_decide as H0; [by apply IH|].
      destruct (decide (s !! "id" = s0 !! "id")) as [Heq|Hne].
      * exists s0. split; [left|done].
      * destruct (IH ({[ s0 !! "id" ]} ∪ seen) Hs) as (s' & Hs' & Hid);
          [by apply not_elem_of_union; split;
             [apply not_elem_of_singleton|]|].
        exists s'. split; [by right|done].
Qed.

Lemma unique_suppliers_first seen l s :
  s ∈ unique_suppliers seen l ->
  head (filter (fun x : gmap string value => x !! "id" = s !! "id") l) = Some s.
Proof.
  revert seen. induction l as [|s0 l IH]; intros seen; simpl.
  - intros H. by apply elem_of_nil in H.
  - case_decide as H0.
    + intros Hs. pose proof (unique_suppliers_ids _ _ _ Hs) as Hid.
      rewrite filter_cons_False by congruence. by apply (IH seen).
    + intros [->|Hs]%elem_of_cons; [by rewrite filter_cons_True|].
      pose proof (unique_suppliers_ids _ _ _ Hs) as Hid.
      rewrite filter_cons_False by set_solver. by apply (IH _ Hs).
Qed.

Lemma filter_none {A} (P : A -> Prop) `{forall x, Decision (P x)} (l : list A) :
  (forall x, x ∈ l -> ~ P x) -> filter P l = [].
Proof.
  induction l as [|x l IH]; intros HP; [done|].
  rewrite filter_cons_False by (apply HP; left).
  apply IH. intros y Hy. apply HP. by right.
Qed.

Lemma NoDup_fmap_count {A B} `{EqDecision B} (f : A -> B) (l : list A) x :
  NoDup (f <$> l) -> x ∈ l -> length (filter (fun y => f y = f x) l) = 1.
Proof.
  induction l as [|y l IH]; simpl.
  - intros _ H0. by apply elem_of_nil in H0.
  - rewrite NoDup_cons. intros [Hy Hnd] Hx.
    destruct (decide (f y = f x)) as [Heq|Hne].
    + rewrite filter_cons_True by done. simpl. f_equal.
      apply length_zero_iff_nil, filter_none. intros z Hz Hfz. apply Hy.
      apply list_elem_of_fmap. exists z. split; [congruence|done].
    + rewrite filter_cons_False by done. apply IH; [done|].
      apply elem_of_cons in Hx as [->|Hx]; done.
Qed.

Lemma suppliers_in_insert l (m : gmap string mval) :
  suppliers_in (<[ "suppliers" := MSuppliers l ]> m) = l.
Proof. unfold suppliers_in. by rewrite lookup_insert_eq. Qed.

(** The undeduplicated supplier list is the concatenation of the
    per-material lists. *)
Lemma collect_materials_suppliers db factory_id :
  (collect_materials db factory_id).2
  = concat (suppliers_in <$> (collect_materials db factory_id).1).
Proof.
  unfold collect_materials.
  apply (foldl_invariant (fun st => st.2 = concat (suppliers_in <$> st.1)));
    [|done].
  intros [ms ss] rel Hst. simpl in *.
  destruct (_ && _); [|done].
  destruct (dict_get _ _); [|done]. simpl.
  rewrite fmap_app, concat_app. simpl.
  by rewrite suppliers_in_insert, app_nil_r, Hst.
Qed.

(** The trace of an existing product. *)
Lemma trace_found db product_id product_node :
  dict_get product_id (nodes db) = Some product_node ->
  exists factory materials certifications,
    trace_supply_chain db product_id
    = {[ "product" := TProps (properties product_node);
         "factory" := factory;
         "materials" := TMaterials materials;
         "suppliers" :=
           TPropsList (unique_suppliers ∅ (concat (suppliers_in <$> materials)));
         "certifications" := TPropsList certifications ]}.
Proof.
  intros Hp. unfold trace_supply_chain. rewrite Hp.
  destruct (find_factory db product_id) as [factory certs].
  destruct (factory_truthy factory); [|by eexists _, [], _].
  destruct (first_manufacturer _ _) as [fid|]; [|by eexists _, [], _].
  destruct (truthy fid); [|by eexists _, [], _].
  pose proof (collect_materials_suppliers db fid) as Hc.
  destruct (collect_materials db fid) as [ms ss]. simpl in Hc. subst ss.
  by eexists _, ms, _.
Qed.

(** X18.  In the trace of an existing product, the list [suppliers] is
    made of the first occurrences, by the value of [supplier.get('id')]
    (which is [None] for a supplier without that property), of the records
    in the concatenation of the materials' own supplier lists, in that
    order: no two of its records have the same such value, and every record
    of a material's list has its value exactly once in it.  The materials'
    own lists are kept as they are. *)
Theorem trace_suppliers_deduplicated (db : GraphDatabase)
    (product_id : value) (product_node : node) :
  dict_get product_id (nodes db) = Some product_node ->
  exists materials suppliers,
    trace_supply_chain db product_id !! "materials"
    = Some (TMaterials materials)
    /\ trace_supply_chain db product_id !! "suppliers"
       = Some (TPropsList suppliers)
    /\ NoDup ((fun s : gmap string value => s !! "id") <$> suppliers)
    /\ sublist suppliers (concat (suppliers_in <$> materials))
    /\ (forall s,
          s ∈ suppliers ->
          head (filter (fun x : gmap string value => x !! "id" = s !! "id")
                       (concat (suppliers_in <$> materials)))
          = Some s)
    /\ (forall m s,
          m ∈ materials -> s ∈ suppliers_in m ->
          length (filter (fun x : gmap string value => x !! "id" = s !! "id")
                         suppliers)
          = 1).
Proof.
  intros Hp.
  destruct (trace_found db product_id product_node Hp)
    as (factory & materials & certs & ->).
  exists materials, (unique_suppliers ∅ (concat (suppliers_in <$> materials))).
  split_and!.
  - by simplify_map_eq.
  - by simplify_map_eq.
  - apply unique_suppliers_NoDup.
  - apply unique_suppliers_sublist.
  - intros s. apply unique_suppliers_first.
  - intros m s Hm Hs.
    destruct (unique_suppliers_covers ∅ (concat (suppliers_in <$> materials)) s)
      as (s' & Hs' & Hid).
    + apply list_elem_of_In, in_concat. exists (suppliers_in m).
      split; apply list_elem_of_In; [|done].
      apply list_elem_of_fmap. by exists m.
    + apply not_elem_of_empty.
    + rewrite <- Hid.
      apply (NoDup_fmap_count (fun s : gmap string value => s !! "id"));
        [apply unique_suppliers_NoDup|done].
Qed.

Lemma trace_suppliers_deduplicated_witness :
  exists m1 m2 s,
    trace_supply_chain db_shared_supplier (VStr "P1") !! "materials"
    = Some (TMaterials [m1; m2])
    /\ trace_supply_chain db_shared_supplier (VStr "P1") !! "suppliers"
       = Some (TPropsList [s])
    /\ suppliers_in m1 = [s] /\ suppliers_in m2 = [s]
    /\ length (filter (fun x : gmap string value => x !! "id" = s !! "id") [s])
       = 1.
Proof.
  destruct (trace_suppliers_deduplicated db_shared_supplier (VStr "P1")
              (Node "Product" (props_of "P1" "Bag")))
    as (materials & suppliers & Hm & Hs & _ & _ & _ & Hcount).
  - vm_compute. reflexivity.
  - vm_compute in Hm. vm_compute in Hs.
    injection Hm as <-. injection Hs as <-.
    eexists _, _, _. split_and!; [reflexivity..|].
    apply (Hcount _ _ (list_elem_of_here _ _)). vm_compute. left.
Defined.

(** C7 at a store whose suppliers were created without an explicit id.
    The second supplier provides both materials of the factory and is in
    both materials' own supplier lists; the list [suppliers] of the trace
    holds the first supplier only, because the last loop keys every
    supplier without an [id] property by [None]. *)
Theorem trace_suppliers_without_id :
  get_all_nodes db_unnamed_suppliers (Some "Supplier")
  = [ {[ "id" := VStr "Supplier_4"; "name" := VStr "Tannery" ]};
      {[ "id" := VStr "Supplier_5"; "name" := VStr "Mill" ]} ]
  /\ trace_supply_chain db_unnamed_suppliers (VStr "P1") !! "materials"
     = Some (TMaterials
               [ <[ "suppliers" := MSuppliers [ {[ "name" := VStr "Tannery" ]};
                                                {[ "name" := VStr "Mill" ]} ] ]>
                   (MVal <$> props_of "M1" "Leather");
                 <[ "suppliers" := MSuppliers [ {[ "name" := VStr "Mill" ]} ] ]>
                   (MVal <$> props_of "M2" "Silk") ])
  /\ trace_supply_chain db_unnamed_suppliers (VStr "P1") !! "suppliers"
     = Some (TPropsList [ {[ "name" := VStr "Tannery" ]} ]).
Proof. split_and!; vm_compute; reflexivity. Qed.

(** C8. For a product id that is not a key of the node table the trace is
    the record [{error: Product (id) not found}]; it differs from the trace
    of every existing product of every store, which has the key [product]
    and not the key [error] -- among them the trace with no factory and
    three empty lists. *)
Theorem trace_not_found (db : GraphDatabase) (product_id : value) :
  dict_get product_id (nodes db) = None ->
  trace_supply_chain db product_id
  = {[ "error" := TStr ("Product " +:+ str product_id +:+ " not found") ]}
  /\ (forall db' product_id' product_node',
        dict_get product_id' (nodes db') = Some product_node' ->
        trace_supply_chain db' product_id' !! "error" = None
        /\ trace_supply_chain db' product_id' !! "product"
           = Some (TProps (properties product_node'))
        /\ trace_supply_chain db' product_id' ≠ trace_supply_chain db product_id)
  /\ (forall p,
        trace_supply_chain db product_id
        ≠ {[ "product" := TProps p;
             "factory" := TNone;
             "materials" := TMaterials [];
             "suppliers" := TPropsList [];
             "certifications" := TPropsList [] ]}).
Proof.
  intros Hp.
  assert (trace_supply_chain db product_id
          = {[ "error" := TStr ("Product " +:+ str product_id +:+ " not found") ]})
    as -> by (unfold trace_supply_chain; by rewrite Hp).
  split_and!.
  - reflexivity.
  - intros db' pid' pn' Hp'.
    destruct (trace_found db' pid' pn' Hp') as (f & ms & cs & ->).
    split_and!; [by simplify_map_eq..|].
    intros Heq. apply (f_equal (fun t => t !! "error")) in Heq.
    by simplify_map_eq.
  - intros p Heq. apply (f_equal (fun t => t !! "error")) in Heq.
    by simplify_map_eq.
Qed.

Lemma trace_not_found_witness :
  trace_supply_chain db_shared_supplier (VStr "P9")
  = {[ "error" := TStr "Product P9 not found" ]}
  /\ trace_supply_chain db_shared_supplier (VStr "S1") !! "error" = None
  /\ trace_supply_chain db_shared_supplier (VStr "S1") !! "factory" = Some TNone.
Proof.
  destruct (trace_not_found db_shared_supplier (VStr "P9")) as (H1 & H2 & _).
  - vm_compute. reflexivity.
  - split_and!; [exact H1| |vm_compute; reflexivity].
    apply (H2 db_shared_supplier (VStr "S1")
             (Node "Supplier" (props_of "S1" "Tannery"))).
    vm_compute. reflexivity.
Defined.

(** ** Snapshots *)

Lemma foldl_insert_list_to_map {A} (l : list (string * A)) :
  foldl (fun (m : gmap string A) kv => <[ kv.1 := kv.2 ]> m) ∅ l
  = list_to_map (reverse l).
Proof.
  unfold list_to_map. generalize (∅ : gmap string A).
  induction l as [|kv l IH]; intros m; simpl; [done|].
  by rewrite IH, reverse_cons, foldr_snoc.
Qed.

Lemma props_of_json_of_props p : props_of_json (json_of_props p) = Some p.
Proof.
  unfold props_of_json, json_of_props.
  rewrite mapM_fmap_Some by (by intros [k []]). simpl. f_equal.
  rewrite foldl_insert_list_to_map.
  rewrite <- (list_to_map_to_list p) at 2. symmetry.
  apply list_to_map_proper; [apply NoDup_fst_map_to_list|].
  symmetry. apply reverse_Permutation.
Qed.

#[local] Arguments props_of_json : simpl never.
#[local] Arguments json_of_props : simpl never.

Lemma node_of_json_of_node n : node_of_json (json_of_node n) = Some n.
Proof.
  destruct n as [l p]. unfold node_of_json, json_of_node. simpl.
  change (dict_get "label" _) with (Some (JStr l)).
  change (dict_get "properties" _) with (Some (json_of_props p)).
  simpl. by rewrite props_of_json_of_props.
Qed.

#[local] Arguments node_of_json : simpl never.
#[local] Arguments json_of_node : simpl never.

Lemma value_of_json_of_value v : value_of_json (json_of_value v) = Some v.
Proof. by destruct v. Qed.

Lemma rel_of_json_of_rel r : rel_of_json (json_of_rel r) = Some r.
Proof.
  destruct r as [f t ty p]. unfold rel_of_json, json_of_rel. simpl.
  change (dict_get "from" _) with (Some (json_of_value f)).
  change (dict_get "to" _) with (Some (json_of_value t)).
  change (dict_get "type" _) with (Some (JStr ty)).
  change (dict_get "properties" _) with (Some (json_of_props p)).
  simpl. by rewrite !value_of_json_of_value, props_of_json_of_props.
Qed.

(** The dictionary built from members with pairwise distinct keys is the
    list of the members. *)
Lemma dict_of_members_wf {K V} `{EqDecision K} (l : list (K * V)) :
  dict_wf l -> dict_of_members l = l.
Proof.
  unfold dict_of_members, dict_wf.
  enough (forall acc : list (K * V),
            NoDup ((acc ++ l).*1) ->
            foldl (fun d kv => dict_set kv.1 kv.2 d) acc l = acc ++ l)
    as Hgen by (intros; by apply (Hgen [])).
  induction l as [|[k v] l IH]; intros acc Hnd; simpl.
  - by rewrite app_nil_r.
  - rewrite dict_set_keys_fresh.
    + rewrite IH; rewrite <- app_assoc; done.
    + rewrite fmap_app in Hnd. apply NoDup_app in Hnd as (_ & Hdisj & _).
      intros Hk. apply (Hdisj k Hk). left.
Qed.

Lemma nodes_of_json_of_nodes (ns : list (value * node)) :
  dict_wf ns -> forallb (fun kv => is_str kv.1) ns = true ->
  nodes_of_json
    (JObj ((fun kv => (json_key kv.1, json_of_node kv.2)) <$> ns))
  = Some ns.
Proof.
  intros Hwf Hstr. unfold nodes_of_json.
  rewrite mapM_fmap_Forall_Some.
  - simpl. f_equal. by apply dict_of_members_wf.
  - apply Forall_forall. intros [k n] Hin. simpl.
    rewrite node_of_json_of_node. simpl.
    apply list_elem_of_In in Hin.
    apply (proj1 (forallb_forall _ _) Hstr) in Hin. by destruct k.
Qed.

#[local] Arguments nodes_of_json : simpl never.
#[local] Arguments rels_of_json : simpl never.

Lemma rels_of_json_of_rels rs :
  rels_of_json (JArr (json_of_rel <$> rs)) = Some rs.
Proof. apply mapM_fmap_Some, rel_of_json_of_rel. Qed.

(** The import of the file that [export_to_json] wrote. *)
Lemma import_from_json_export db db0 fs filepath :
  dict_wf (nodes db) ->
  forallb (fun kv => is_str kv.1) (nodes db) = true ->
  import_from_json db0 (export_to_json db fs filepath) filepath
  = Ok (Installed (Db (nodes db) (relationships db) (node_counter db0))).
Proof.
  intros Hwf Hstr. unfold import_from_json, export_to_json.
  rewrite lookup_insert_eq. unfold snapshot.
  cbn [dict_of_members foldl].
  change (dict_get "nodes" _)
    with (Some (JObj ((fun kv => (json_key kv.1, json_of_node kv.2))
                        <$> nodes db))).
  change (dict_get "relationships" _)
    with (Some (JArr (json_of_rel <$> relationships db))).
  cbv beta iota zeta. cbn [default from_option]. unfold id.
  by rewrite nodes_of_json_of_nodes, rels_of_json_of_rels.
Qed.



(** ** More on the store *)

Lemma dict_mem_set_eq {K V} `{EqDecision K} (k : K) (v : V) d :
  dict_mem k (dict_set k v d) = true.
Proof. unfold dict_mem. by rewrite dict_get_set_eq. Qed.

Lemma dict_mem_set_mono {K V} `{EqDecision K} (k k' : K) (v : V) d :
  dict_mem k' d = true -> dict_mem k' (dict_set k v d) = true.
Proof.
  destruct (decide (k = k')) as [->|Hne]; [intros _; apply dict_mem_set_eq|].
  unfold dict_mem. by rewrite dict_get_set_ne.
Qed.

(** X1. The id that [create_node] returns is the explicit [id] of the
    properties, or else the label, an underscore and the counter; it
    resolves to the new node, every other id resolves as before, the
    relationship list is untouched and the counter goes up by one (also
    when the id was explicit). *)
Theorem create_node_lookup (db : GraphDatabase) (lbl : string)
    (props : gmap string value) :
  (create_node db lbl props).2
  = default (synthesized_id lbl (node_counter db)) (props !! "id")
  /\ dict_get (create_node db lbl props).2 (nodes (create_node db lbl props).1)
     = Some (Node lbl props)
  /\ (forall k, k ≠ (create_node db lbl props).2 ->
                dict_get k (nodes (create_node db lbl props).1)
                = dict_get k (nodes db))
  /\ relationships (create_node db lbl props).1 = relationships db
  /\ node_counter (create_node db lbl props).1 = S (node_counter db).
Proof.
  unfold create_node, synthesized_id. simpl. split_and!.
  - by destruct (props !! "id").
  - apply dict_get_set_eq.
  - intros k Hk. by apply dict_get_set_ne.
  - done.
  - done.
Qed.

Lemma string_app_inj (a b c : string) : a +:+ b = a +:+ c -> b = c.
Proof. induction a as [|x a IH]; simpl; [done|]. intros [= ?]. auto. Qed.

Lemma synthesized_id_inj lbl n m :
  synthesized_id lbl n = synthesized_id lbl m -> n = m.
Proof.
  unfold synthesized_id. intros [= H].
  apply string_app_inj, string_app_inj in H. by apply (inj pretty).
Qed.

(** X2. Two nodes created one after the other with the same label and no
    explicit id get different ids, and both are in the store afterwards:
    the second creation does not overwrite the first. *)
Theorem create_node_twice (db : GraphDatabase) (lbl : string)
    (props1 props2 : gmap string value) :
  props1 !! "id" = None -> props2 !! "id" = None ->
  exists db1 id1 db2 id2,
    create_node db lbl props1 = (db1, id1)
    /\ create_node db1 lbl props2 = (db2, id2)
    /\ id1 ≠ id2
    /\ dict_get id1 (nodes db2) = Some (Node lbl props1)
    /\ dict_get id2 (nodes db2) = Some (Node lbl props2).
Proof.
  intros H1 H2. unfold create_node. rewrite H1, H2.
  eexists _, _, _, _. split_and!; [reflexivity..| | |];
    cbn [nodes node_counter]; fold (synthesized_id lbl (node_counter db));
    fold (synthesized_id lbl (S (node_counter db))).
  - intros Heq. apply (synthesized_id_inj lbl) in Heq. simpl in Heq. lia.
  - rewrite dict_get_set_ne, dict_get_set_eq; [done|].
    intros Heq. apply (synthesized_id_inj lbl) in Heq. simpl in Heq. lia.
  - apply dict_get_set_eq.
Qed.

Lemma create_node_twice_witness :
  exists db1 id1 db2 id2,
    create_node db_main "Factory" {[ "name" := VStr "Atelier" ]} = (db1, id1)
    /\ create_node db1 "Factory" {[ "name" := VStr "Workshop" ]} = (db2, id2)
    /\ id1 ≠ id2
    /\ dict_get id1 (nodes db2)
       = Some (Node "Factory" {[ "name" := VStr "Atelier" ]})
    /\ dict_get id2 (nodes db2)
       = Some (Node "Factory" {[ "name" := VStr "Workshop" ]}).
Proof.
  apply (create_node_twice db_main "Factory"); reflexivity.
Defined.

Lemma rel_integrity_nodes db ns :
  (forall k, dict_mem k (nodes db) = true -> dict_mem k ns = true) ->
  rel_integrity db ->
  rel_integrity (Db ns (relationships db) (node_counter db)).
Proof.
  intros Hns. unfold rel_integrity. simpl.
  intros H. eapply Forall_impl; [exact H|]. intros r [? ?]. auto.
Qed.

(** X3. Referential integrity is an invariant of the store operations: the
    empty store and a cleared store have it, and [create_node] and
    [create_relationship] (whether it succeeds or raises) keep it.  So in a
    store built with these operations every relationship has both its
    endpoints in the node table. *)
Theorem rel_integrity_preserved (db : GraphDatabase) :
  rel_integrity db ->
  rel_integrity init
  /\ rel_integrity (clear db)
  /\ (forall lbl props, rel_integrity (create_node db lbl props).1)
  /\ (forall from_id to_id rel_ty props,
        rel_integrity (create_relationship db from_id to_id rel_ty props).1).
Proof.
  intros Hdb. split_and!.
  - constructor.
  - constructor.
  - intros lbl props. unfold create_node.
    apply (rel_integrity_nodes db); [|done].
    intros k. apply dict_mem_set_mono.
  - intros f t ty props. unfold create_relationship.
    destruct (dict_mem f (nodes db)) eqn:Ef; [|done].
    destruct (dict_mem t (nodes db)) eqn:Et; [|done].
    unfold rel_integrity. simpl. apply Forall_app. split; [done|].
    by repeat constructor.
Qed.

Lemma rel_integrity_preserved_witness :
  rel_integrity db_shared_supplier.
Proof.
  unfold db_shared_supplier, add_rel, add_node.
  repeat (apply (fun db H => proj2 (proj2 (proj2 (rel_integrity_preserved db H))))
          || apply (fun db H => proj1 (proj2 (proj2 (rel_integrity_preserved db H))))).
  constructor.
Defined.

(** X4. After a successful [create_relationship] of a non-empty type, the
    listing of that type is the former listing followed by the new record,
    the listing of every other non-empty type is unchanged, and the
    unfiltered listing is the former one followed by the new record. *)
Theorem get_all_relationships_after_create (db : GraphDatabase)
    (from_id to_id : value) (rel_ty : string)
    (props : option (gmap string value)) :
  dict_mem from_id (nodes db) = true -> dict_mem to_id (nodes db) = true ->
  rel_ty ≠ "" ->
  get_all_relationships
    (create_relationship db from_id to_id rel_ty props).1 (Some rel_ty)
  = get_all_relationships db (Some rel_ty)
    ++ [Rel from_id to_id rel_ty (default ∅ props)]
  /\ (forall ty, ty ≠ "" -> ty ≠ rel_ty ->
        get_all_relationships
          (create_relationship db from_id to_id rel_ty props).1 (Some ty)
        = get_all_relationships db (Some ty))
  /\ get_all_relationships
       (create_relationship db from_id to_id rel_ty props).1 None
     = get_all_relationships db None
       ++ [Rel from_id to_id rel_ty (default ∅ props)].
Proof.
  intros Hf Ht Hty. unfold create_relationship. rewrite Hf, Ht. simpl.
  unfold get_all_relationships. simpl. split_and!.
  - apply String.eqb_neq in Hty. rewrite Hty. simpl.
    by rewrite filter_app, filter_cons_True.
  - intros ty Hne Hne'. apply String.eqb_neq in Hne. rewrite Hne. simpl.
    rewrite filter_app, filter_cons_False by (simpl; congruence).
    by rewrite app_nil_r.
  - done.
Qed.

Lemma get_all_relationships_after_create_witness :
  get_all_relationships
    (create_relationship db_main (VStr "MAT001") (VStr "SUP001") "USED_BY"
       None).1 (Some "USED_BY")
  = get_all_relationships db_main (Some "USED_BY")
    ++ [Rel (VStr "MAT001") (VStr "SUP001") "USED_BY" ∅].
Proof.
  apply (get_all_relationships_after_create db_main (VStr "MAT001")
           (VStr "SUP001") "USED_BY" None); [reflexivity..|discriminate].
Defined.

(** X5. [get_schema] lists every label that some node has, and every type
    that some relationship has, each exactly once; its counts are the
    number of entries of the node table (the number of records that
    [get_all_nodes] returns without a label) and the length of the
    relationship list; and for every label it lists, [get_all_nodes] with
    that label returns at least one record. *)
Theorem get_schema_contents (db : GraphDatabase) :
  NoDup (node_labels (get_schema db))
  /\ (forall l, l ∈ node_labels (get_schema db)
                <-> exists kv, kv ∈ nodes db /\ label kv.2 = l)
  /\ NoDup (relationship_types (get_schema db))
  /\ (forall t, t ∈ relationship_types (get_schema db)
                <-> exists r, r ∈ relationships db /\ rel_type r = t)
  /\ node_count (get_schema db) = length (get_all_nodes db None)
  /\ relationship_count (get_schema db) = length (relationships db)
  /\ (forall l, l ∈ node_labels (get_schema db) ->
                get_all_nodes db (Some l) ≠ []).
Proof.
  assert (Hlab : forall l, l ∈ node_labels (get_schema db)
                           <-> exists kv, kv ∈ nodes db /\ label kv.2 = l).
  { intros l. simpl. rewrite elem_of_elements, elem_of_list_to_set,
      list_elem_of_fmap.
    split; [intros (kv & -> & Hin)|intros (kv & Hin & <-)]; by exists kv. }
  split_and!.
  - simpl. apply NoDup_elements.
  - done.
  - simpl. apply NoDup_elements.
  - intros t. simpl. rewrite elem_of_elements, elem_of_list_to_set,
      list_elem_of_fmap.
    split; [intros (r & -> & Hin)|intros (r & Hin & <-)]; by exists r.
  - simpl. by rewrite length_fmap.
  - done.
  - intros l [kv [Hkv Hl]]%Hlab. unfold get_all_nodes.
    destruct (negb (String.eqb l "")).
    + intros Hnil. apply fmap_nil_inv in Hnil.
      assert (kv ∈ filter (fun kv => label kv.2 = l) (nodes db)) as Hin
        by (by apply list_elem_of_filter).
      rewrite Hnil in Hin. by apply elem_of_nil in Hin.
    + intros Hnil. apply fmap_nil_inv in Hnil. rewrite Hnil in Hkv.
      by apply elem_of_nil in Hkv.
Qed.

(** X6. [get_all_nodes] lists in creation order: after [create_node] has
    added a node under an id that was not in the table, the listing of its
    (non-empty) label is the former listing followed by the record of the
    new node, the listing of any other non-empty label is unchanged, and
    the unfiltered listing has gained one record at its end. *)
Theorem get_all_nodes_after_create (db : GraphDatabase) (lbl : string)
    (props : gmap string value) :
  dict_mem (create_node db lbl props).2 (nodes db) = false ->
  lbl ≠ "" ->
  get_all_nodes (create_node db lbl props).1 (Some lbl)
  = get_all_nodes db (Some lbl)
    ++ [node_record (create_node db lbl props).2 (Node lbl props)]
  /\ (forall l, l ≠ "" -> l ≠ lbl ->
        get_all_nodes (create_node db lbl props).1 (Some l)
        = get_all_nodes db (Some l))
  /\ length (get_all_nodes (create_node db lbl props).1 None)
     = S (length (get_all_nodes db None)).
Proof.
  intros Hfresh Hlbl.
  assert (nodes (create_node db lbl props).1
          = nodes db ++ [((create_node db lbl props).2, Node lbl props)])
    as Hn.
  { unfold create_node in *. simpl in *. apply dict_set_keys_fresh.
    apply dict_get_None. unfold dict_mem in Hfresh.
    by destruct (dict_get _ (nodes db)). }
  unfold get_all_nodes. rewrite Hn. split_and!.
  - apply String.eqb_neq in Hlbl. rewrite Hlbl. simpl.
    by rewrite filter_app, filter_cons_True, fmap_app.
  - intros l Hl Hne. apply String.eqb_neq in Hl. rewrite Hl. simpl.
    rewrite filter_app, filter_cons_False by (simpl; congruence).
    by rewrite app_nil_r.
  - rewrite !length_fmap, length_app. simpl. lia.
Qed.

Lemma get_all_nodes_after_create_witness :
  get_all_nodes
    (create_node db_main "Supplier" {[ "id" := VStr "SUP002" ]}).1
    (Some "Supplier")
  = get_all_nodes db_main (Some "Supplier")
    ++ [node_record
          (create_node db_main "Supplier" {[ "id" := VStr "SUP002" ]}).2
          (Node "Supplier" {[ "id" := VStr "SUP002" ]})].
Proof.
  apply (get_all_nodes_after_create db_main "Supplier"
           {[ "id" := VStr "SUP002" ]}); [reflexivity|discriminate].
Defined.

(** ** More on text *)

Lemma forallb_reverse {A} (p : A -> bool) (l : list A) :
  forallb p (reverse l) = forallb p l.
Proof.
  induction l as [|x l IH]; [done|].
  rewrite reverse_cons, forallb_app, IH. simpl.
  rewrite andb_true_r. apply andb_comm.
Qed.

Lemma lstrip_by_all p s : forallb p s = true -> lstrip_by p s = [].
Proof.
  induction s as [|c s IH]; simpl; [done|].
  intros [-> ?]%andb_true_iff. auto.
Qed.

Lemma lstrip_by_app p a b :
  lstrip_by p (a ++ b)
  = if forallb p a then lstrip_by p b else lstrip_by p a ++ b.
Proof.
  induction a as [|c a IH]; simpl; [done|].
  destruct (p c); simpl; [apply IH|done].
Qed.

Lemma rstrip_by_all p s : forallb p s = true -> rstrip_by p s = [].
Proof.
  intros Hs. unfold rstrip_by.
  by rewrite lstrip_by_all by (by rewrite forallb_reverse).
Qed.

Lemma rstrip_by_app p a b :
  rstrip_by p (a ++ b)
  = if forallb p b then rstrip_by p a else a ++ rstrip_by p b.
Proof.
  unfold rstrip_by. rewrite reverse_app, lstrip_by_app, forallb_reverse.
  destruct (forallb p b); [done|].
  by rewrite reverse_app, reverse_involutive.
Qed.

(** Characters of the stripped class around a text do not change what
    [strip] returns. *)
Lemma strip_by_pad p a s b :
  forallb p a = true -> forallb p b = true ->
  strip_by p (a ++ s ++ b) = strip_by p s.
Proof.
  intros Ha Hb. unfold strip_by. rewrite lstrip_by_app, Ha.
  rewrite lstrip_by_app. destruct (forallb p s) eqn:Hs.
  - by rewrite (lstrip_by_all p b), (lstrip_by_all p s).
  - by rewrite rstrip_by_app, Hb.
Qed.

(** A text whose first and last characters are outside the stripped class
    keeps what precedes the stripping of what follows it. *)
Lemma strip_by_app_r p w t :
  w ≠ [] ->
  (forall c, head w = Some c -> p c = false) ->
  (forall d, last w = Some d -> p d = false) ->
  strip_by p (w ++ t) = w ++ rstrip_by p t.
Proof.
  intros Hne Hh Hl. unfold strip_by.
  rewrite (lstrip_by_head p (w ++ t)).
  - rewrite rstrip_by_app. destruct (forallb p t) eqn:Ht.
    + rewrite (rstrip_by_all p t), app_nil_r by done.
      unfold rstrip_by. rewrite lstrip_by_head; [apply reverse_involutive|].
      intros d. rewrite head_reverse. apply Hl.
    + done.
  - destruct w; [done|]. simpl. intros c [= <-]. by apply Hh.
Qed.

Lemma forallb_lstrip_by (q p : ascii -> bool) s :
  forallb q s = true -> forallb q (lstrip_by p s) = true.
Proof.
  induction s as [|c s IH]; simpl; [done|].
  intros [Hc Hs]%andb_true_iff. destruct (p c); [auto|].
  simpl. by rewrite Hc, Hs.
Qed.

Lemma forallb_rstrip_by (q p : ascii -> bool) s :
  forallb q s = true -> forallb q (rstrip_by p s) = true.
Proof.
  intros Hs. unfold rstrip_by. rewrite forallb_reverse.
  apply forallb_lstrip_by. by rewrite forallb_reverse.
Qed.

Lemma startswith_app a b : startswith (a ++ b) a = true.
Proof.
  induction a as [|c a IH]; simpl; [by destruct b|]. by rewrite Nat.eqb_refl.
Qed.

Lemma upper_app a b : upper (a ++ b) = upper a ++ upper b.
Proof. apply bind_app. Qed.

Lemma literal_Some lit s r : literal lit s = Some r -> s = lit ++ r.
Proof.
  revert s. induction lit as [|c lit IH]; intros s.
  - by intros [= ->].
  - destruct s as [|d s]; [done|]. rewrite literal_cons.
    destruct (Ascii.eqb_spec c d) as [->|]; [|done].
    intros H. by rewrite (IH _ H).
Qed.

(** Without a colon there is no arrow. *)
Lemma rel_pattern_no_colon s :
  forallb (fun d => negb (Ascii.eqb d ":")) s = true -> rel_pattern s = None.
Proof.
  intros Hs. unfold rel_pattern.
  destruct (literal _ s) as [s1|] eqn:E; [|done].
  apply literal_Some in E. subst s. simpl in Hs. done.
Qed.

Lemma findall_rel_no_colon s :
  forallb (fun d => negb (Ascii.eqb d ":")) s = true ->
  findall rel_pattern s = [].
Proof.
  unfold findall. induction s as [|c s IH]; [done|].
  intros Hs. simpl. rewrite rel_pattern_no_colon by done.
  simpl in Hs. apply andb_true_iff in Hs as [_ Hs]. auto.
Qed.

Lemma split_once_None sep s :
  forallb (fun d => negb (Ascii.eqb d sep)) s = true -> split_once sep s = None.
Proof.
  induction s as [|c s IH]; simpl; [done|].
  intros [Hc Hs]%andb_true_iff. apply negb_true_iff in Hc.
  by rewrite Hc, IH.
Qed.

Lemma split_once_app sep a b :
  forallb (fun d => negb (Ascii.eqb d sep)) a = true ->
  split_once sep (a ++ sep :: b) = Some (a, b).
Proof.
  induction a as [|c a IH]; simpl.
  - by rewrite Ascii.eqb_refl.
  - intros [Hc Ha]%andb_true_iff. apply negb_true_iff in Hc.
    by rewrite Hc, IH.
Qed.

Lemma split_no_sep sep a :
  forallb (fun d => negb (Ascii.eqb d sep)) a = true -> split sep a = [a].
Proof.
  induction a as [|c a IH]; simpl; [done|].
  intros [Hc Ha]%andb_true_iff. apply negb_true_iff in Hc.
  by rewrite Hc, IH.
Qed.

Lemma split_app sep a b :
  forallb (fun d => negb (Ascii.eqb d sep)) a = true ->
  split sep (a ++ sep :: b) = a :: split sep b.
Proof.
  induction a as [|c a IH]; simpl.
  - by rewrite Ascii.eqb_refl.
  - intros [Hc Ha]%andb_true_iff. apply negb_true_iff in Hc.
    by rewrite Hc, IH.
Qed.

(** The pieces of a text have the characters of the text. *)
Lemma split_forallb sep (q : ascii -> bool) s :
  forallb q s = true -> Forall (fun piece => forallb q piece = true) (split sep s).
Proof.
  induction s as [|c s IH]; simpl; [by repeat constructor|].
  intros [Hc Hs]%andb_true_iff. specialize (IH Hs).
  destruct (Ascii.eqb c sep); [by constructor|].
  destruct (split sep s) as [|h r]; [by repeat constructor; simpl; rewrite Hc|].
  apply Forall_cons in IH as [Hh Hr]. constructor; [|done].
  simpl. by rewrite Hc, Hh.
Qed.

(** ** More on queries *)

Lemma _execute_match_single db q v l body :
  findall node_pattern q = [(v, l, body)] ->
  findall rel_pattern q = [] ->
  _execute_match db q
  = match_single_node db [(of_text v, of_text l, of_text body)].
Proof. intros Hn Hr. unfold _execute_match. by rewrite Hn, Hr. Qed.

Lemma _execute_match_first_hop db q g1 g2 more r more' :
  findall node_pattern q = g1 :: g2 :: more ->
  findall rel_pattern q = r :: more' ->
  _execute_match db q
  = Ok (relationships db
          ≫= match_rel_row db (of_text g1.1.1) (of_text g1.1.2)
               (of_text g2.1.1) (of_text g2.1.2) (of_text r)).
Proof.
  intros Hn Hr. unfold _execute_match. rewrite Hn, Hr.
  by destruct g1 as [[??]?], g2 as [[??]?].
Qed.




Lemma _parse_properties_no_colon s :
  forallb (fun d => negb (Ascii.eqb d ":")) s = true ->
  _parse_properties s = ∅.
Proof.
  intros Hs. unfold _parse_properties.
  pose proof (split_forallb "," _ s Hs) as Hp.
  generalize (∅ : gmap string string).
  induction Hp as [|piece ps Hpiece _ IH]; intros m; simpl; [done|].
  by rewrite split_once_None, IH.
Qed.

(** X8. An inline filter whose text has no colon is read as no filter at
    all: the single-node query returns every node of the label, as the
    query without the filter does. *)
Theorem single_node_query_filter_without_colon (db : GraphDatabase)
    (var lbl : string) (f : option (string * string)) :
  is_identifier var = true -> is_identifier lbl = true ->
  filter_ok f = true ->
  no_char ":" (filter_body f) = true ->
  execute_cypher db (single_node_query var lbl f)
  = execute_cypher db (single_node_query var lbl None)
  /\ execute_cypher db (single_node_query var lbl f)
     = Ok ((fun kv => {[ var := BRec (node_record kv.1 kv.2) ]})
             <$> filter (fun kv => label kv.2 = lbl) (nodes db)).
Proof.
  intros Hv Hl Hf Hc. unfold no_char in Hc.
  assert (execute_cypher db (single_node_query var lbl f)
          = Ok ((fun kv => {[ var := BRec (node_record kv.1 kv.2) ]})
                  <$> filter (fun kv => label kv.2 = lbl) (nodes db))) as H1.
  { rewrite execute_single_node_query
      by (done || by apply findall_rel_no_colon).
    rewrite _parse_properties_no_colon by done.
    f_equal. f_equal. by apply filter_all. }
  split; [|done]. rewrite H1.
  rewrite execute_single_node_query by done. simpl.
  rewrite (_parse_properties_no_colon []) by done.
  f_equal. f_equal. symmetry. by apply filter_all.
Qed.

Lemma single_node_query_filter_without_colon_witness :
  execute_cypher db_main
    (single_node_query "s" "Supplier" (Some (" ", "Florence")))
  = execute_cypher db_main (single_node_query "s" "Supplier" None).
Proof.
  apply (single_node_query_filter_without_colon db_main "s" "Supplier"
           (Some (" ", "Florence"))); reflexivity.
Defined.

(** X9. White space around the query text is ignored. *)
Theorem execute_cypher_surrounding_space (db : GraphDatabase)
    (query ws1 ws2 : string) :
  forallb is_space (to_text ws1) = true ->
  forallb is_space (to_text ws2) = true ->
  execute_cypher db (ws1 +:+ query +:+ ws2) = execute_cypher db query.
Proof.
  intros H1 H2. unfold execute_cypher, strip.
  by rewrite !to_text_app, strip_by_pad.
Qed.

Lemma execute_cypher_surrounding_space_witness :
  execute_cypher db_main ("  " +:+ "MATCH (s:Supplier) RETURN s" +:+ " ")
  = execute_cypher db_main "MATCH (s:Supplier) RETURN s".
Proof.
  apply (execute_cypher_surrounding_space db_main
           "MATCH (s:Supplier) RETURN s" "  " " "); reflexivity.
Defined.

(** A character whose upper-case form is made of ASCII capital letters is
    a word character. *)
Lemma is_word_upper_char c :
  forallb (fun n => (65 <=? n) && (n <=? 90)) (upper_char c) = true ->
  is_word c = true.
Proof. destruct c as [[] [] [] [] [] [] [] []]; vm_compute; congruence. Qed.

Lemma forallb_is_word_upper s :
  forallb (fun n => (65 <=? n) && (n <=? 90)) (upper s) = true ->
  forallb is_word s = true.
Proof.
  induction s as [|c s IH]; [done|].
  unfold upper. rewrite bind_cons, forallb_app.
  intros [Hc Hs]%andb_true_iff. simpl.
  by rewrite is_word_upper_char, IH.
Qed.

Lemma strip_word_app w t :
  w ≠ [] -> forallb is_word w = true ->
  strip (w ++ t) = w ++ rstrip_by is_space t.
Proof.
  intros Hne Hw. apply strip_by_app_r; [done| |].
  - intros c Hc. apply is_word_not_space.
    apply head_Some_elem_of, list_elem_of_In in Hc.
    by apply (proj1 (forallb_forall _ _) Hw).
  - intros c Hc. apply is_word_not_space.
    apply last_Some_elem_of, list_elem_of_In in Hc.
    by apply (proj1 (forallb_forall _ _) Hw).
Qed.

Lemma _execute_match_word_prefix db w t :
  forallb is_word w = true ->
  _execute_match db (w ++ t) = _execute_match db t.
Proof.
  intros Hw. unfold _execute_match.
  rewrite (findall_pass node_pattern "(" w)
    by (apply node_pattern_first || by apply forallb_word_no_paren).
  by rewrite (findall_pass rel_pattern "-" w)
    by (apply rel_pattern_first || by apply forallb_word_no_dash).
Qed.

(** X10. The keyword MATCH is recognised in any letter case: a text that
    begins with a case variant of MATCH gives the result of the text with
    the keyword in upper case. *)
Theorem execute_cypher_keyword_case (db : GraphDatabase) (kw rest : string) :
  upper (to_text kw) = points (to_text "MATCH") ->
  execute_cypher db (kw +:+ rest) = execute_cypher db ("MATCH" +:+ rest).
Proof.
  intros Hkw.
  assert (forallb is_word (to_text kw) = true) as Hw
    by (apply forallb_is_word_upper; by rewrite Hkw).
  assert (to_text kw ≠ []) as Hne by (intros E; by rewrite E in Hkw).
  unfold execute_cypher. rewrite !to_text_app.
  rewrite !strip_word_app by done.
  rewrite !upper_app, Hkw.
  change (upper (to_text "MATCH")) with (points (to_text "MATCH")).
  rewrite startswith_app.
  by rewrite !_execute_match_word_prefix.
Qed.

Lemma execute_cypher_keyword_case_witness :
  execute_cypher db_main ("Match" +:+ " (s:Supplier) return s")
  = execute_cypher db_main ("MATCH" +:+ " (s:Supplier) return s").
Proof.
  apply (execute_cypher_keyword_case db_main "Match" " (s:Supplier) return s").
  reflexivity.
Defined.

Lemma forallb_eqb_sym c s :
  forallb (fun d => negb (Ascii.eqb c d)) s
  = forallb (fun d => negb (Ascii.eqb d c)) s.
Proof.
  induction s as [|d s IH]; simpl; [done|].
  by rewrite IH, (Ascii.eqb_sym c d).
Qed.

Lemma last_node_text a v l f :
  last (a ++ to_text (node_text v l f)) = Some ")"%char.
Proof.
  unfold node_text. rewrite !to_text_app, !app_assoc.
  apply (last_snoc ")"%char).
Qed.

Lemma strip_pattern_tail p v l f t :
  strip ((to_text "MATCH " ++ p ++ to_text (node_text v l f)) ++ t)
  = (to_text "MATCH " ++ p ++ to_text (node_text v l f))
    ++ rstrip_by is_space t.
Proof.
  apply strip_by_app_r.
  - done.
  - by intros c [= <-].
  - intros d. rewrite (app_assoc _ p), last_node_text. by intros [= <-].
Qed.

(** X11. Only the first hop of a relationship query is read.  Whatever
    text follows the second node pattern -- further hops, a WHERE, ORDER BY
    or LIMIT clause, or nothing at all -- the rows are those of the query
    [MATCH (var1:Label1)-[:RELTYPE]->(var2:Label2) RETURN var1, var2]. *)
Theorem relationship_query_tail_ignored (db : GraphDatabase)
    (var1 label1 : string) (f1 : option (string * string))
    (rel_ty var2 label2 : string) (f2 : option (string * string))
    (tail : string) :
  is_identifier var1 = true -> is_identifier label1 = true ->
  is_identifier rel_ty = true ->
  is_identifier var2 = true -> is_identifier label2 = true ->
  filter_ok f1 = true -> filter_ok f2 = true ->
  findall rel_pattern (to_text (filter_body f1)) = [] ->
  execute_cypher db
    (first_hop_text var1 label1 f1 rel_ty var2 label2 f2 +:+ tail)
  = execute_cypher db
      (relationship_query var1 label1 f1 rel_ty var2 label2 f2).
Proof.
  intros Hv1 Hl1 Hty Hv2 Hl2 Hf1 Hf2 Hbody.
  pose proof (is_identifier_spec _ Hty) as [_ Wty].
  rewrite execute_relationship_query by done.
  unfold execute_cypher.
  assert (to_text (first_hop_text var1 label1 f1 rel_ty var2 label2 f2
                   +:+ tail)
          = (to_text "MATCH "
             ++ (to_text (node_text var1 label1 f1) ++ to_text "-[:"
                 ++ to_text rel_ty ++ to_text "]->")
             ++ to_text (node_text var2 label2 f2))
            ++ to_text tail) as ->
    by (unfold first_hop_text; by rewrite !to_text_app, <- !app_assoc).
  rewrite strip_pattern_tail.
  set (t := rstrip_by is_space (to_text tail)).
  replace (startswith _ (points (to_text "MATCH"))) with true by done.
  rewrite <- !app_assoc.
  erewrite _execute_match_first_hop; cycle 1.
  - rewrite (findall_pass node_pattern "(" (to_text "MATCH "))
      by (apply node_pattern_first || reflexivity).
    rewrite (findall_match node_pattern _ _ _ (node_text_not_nil var1 label1 f1)
               (node_pattern_node_text var1 label1 f1 _ Hv1 Hl1 Hf1)).
    rewrite (findall_pass node_pattern "(" (to_text "-[:"))
      by (apply node_pattern_first || reflexivity).
    rewrite (findall_pass node_pattern "(" (to_text rel_ty))
      by (apply node_pattern_first || by apply forallb_word_no_paren).
    rewrite (findall_pass node_pattern "(" (to_text "]->"))
      by (apply node_pattern_first || reflexivity).
    rewrite (findall_match node_pattern _ _ _ (node_text_not_nil var2 label2 f2)
               (node_pattern_node_text var2 label2 f2 _ Hv2 Hl2 Hf2)).
    reflexivity.
  - rewrite (findall_pass rel_pattern "-" (to_text "MATCH "))
      by (apply rel_pattern_first || reflexivity).
    rewrite findall_rel_node_text by done.
    rewrite (app_assoc (to_text rel_ty)), (app_assoc (to_text "-[:")).
    erewrite findall_match; [reflexivity|done|by apply rel_pattern_arrow].
  - simpl. by rewrite !of_to_text.
Qed.

Lemma relationship_query_tail_ignored_witness :
  execute_cypher db_main
    (first_hop_text "s" "Supplier" None "PROVIDES" "m" "Material" None
     +:+ "-[:SUPPLIED_TO]->(f:Factory) RETURN s, m, f")
  = execute_cypher db_main
      (relationship_query "s" "Supplier" None "PROVIDES" "m" "Material" None).
Proof.
  apply (relationship_query_tail_ignored db_main "s" "Supplier" None
           "PROVIDES" "m" "Material" None); reflexivity.
Defined.

(** X12. What follows the node pattern of a single-node query is not read:
    with any text in place of the RETURN clause that has no opening
    parenthesis and no dash, the rows are those of
    [MATCH (var:Label f) RETURN var].  The names are identifiers and the
    filter [f] is absent or has a non-empty text without closing brace and
    without an arrow [-[:T]->]. *)
Theorem single_node_query_tail_ignored (db : GraphDatabase)
    (var lbl : string) (f : option (string * string)) (tail : string) :
  is_identifier var = true -> is_identifier lbl = true ->
  filter_ok f = true ->
  findall rel_pattern (to_text (filter_body f)) = [] ->
  no_char "(" tail = true -> no_char "-" tail = true ->
  execute_cypher db ("MATCH " +:+ node_text var lbl f +:+ tail)
  = execute_cypher db (single_node_query var lbl f).
Proof.
  intros Hv Hl Hf Hbody Hp Hd. unfold no_char in *.
  assert (execute_cypher db (single_node_query var lbl f)
          = match_single_node db [(var, lbl, filter_body f)]) as ->.
  { unfold execute_cypher. rewrite strip_single_node_query by done.
    replace (startswith _ (points (to_text "MATCH"))) with true
      by (unfold single_node_query; by rewrite to_text_app).
    erewrite _execute_match_single; cycle 1.
    - by apply findall_node_single_node_query.
    - by apply findall_rel_single_node_query.
    - by rewrite !of_to_text. }
  unfold execute_cypher.
  assert (to_text ("MATCH " +:+ node_text var lbl f +:+ tail)
          = (to_text "MATCH " ++ [] ++ to_text (node_text var lbl f))
            ++ to_text tail) as ->
    by (by rewrite !to_text_app, <- !app_assoc).
  rewrite strip_pattern_tail, app_nil_l.
  replace (startswith _ (points (to_text "MATCH"))) with true by done.
  rewrite <- !app_assoc.
  erewrite _execute_match_single; cycle 1.
  - rewrite (findall_pass node_pattern "(" (to_text "MATCH "))
      by (apply node_pattern_first || reflexivity).
    rewrite (findall_match node_pattern _ _ _ (node_text_not_nil var lbl f)
               (node_pattern_node_text var lbl f _ Hv Hl Hf)).
    rewrite (findall_nil node_pattern "("); [done|apply node_pattern_first|].
    apply forallb_rstrip_by. by rewrite forallb_eqb_sym.
  - rewrite (findall_pass rel_pattern "-" (to_text "MATCH "))
      by (apply rel_pattern_first || reflexivity).
    rewrite findall_rel_node_text by done.
    apply (findall_nil rel_pattern "-"); [apply rel_pattern_first|].
    apply forallb_rstrip_by. by rewrite forallb_eqb_sym.
  - by rewrite !of_to_text.
Qed.

Lemma single_node_query_tail_ignored_witness :
  execute_cypher db_main
    ("MATCH " +:+ node_text "s" "Supplier" None
     +:+ " WHERE s.name = 1 ORDER BY s.name LIMIT 1")
  = execute_cypher db_main (single_node_query "s" "Supplier" None).
Proof.
  apply (single_node_query_tail_ignored db_main "s" "Supplier" None
           " WHERE s.name = 1 ORDER BY s.name LIMIT 1"); reflexivity.
Defined.

(** ** [_parse_properties] on well-formed filter text *)

Lemma forallb_space_no_char d s :
  is_space d = false -> forallb is_space s = true ->
  forallb (fun c => negb (Ascii.eqb c d)) s = true.
Proof.
  intros Hd Hs. rewrite <- forallb_eqb_sym.
  by apply (forallb_class_neq is_space).
Qed.

Lemma strip_by_pad_l p a s :
  forallb p a = true -> strip_by p (a ++ s) = strip_by p s.
Proof.
  intros Ha. rewrite <- (app_nil_r s) at 1. by apply strip_by_pad.
Qed.

Lemma plain_key_spec k :
  plain_key k = true ->
  forallb (fun c => negb (Ascii.eqb c ",")) (to_text k) = true
  /\ forallb (fun c => negb (Ascii.eqb c ":")) (to_text k) = true
  /\ strip (to_text k) = to_text k.
Proof.
  unfold plain_key, no_char. intros [[H1 H2]%andb_true_iff H3]%andb_true_iff.
  by apply bool_decide_eq_true in H3.
Qed.

Lemma plain_value_spec v :
  plain_value v = true ->
  forallb (fun c => negb (Ascii.eqb c ",")) (to_text v) = true
  /\ strip_char "'" (strip_char dquote (to_text v)) = to_text v.
Proof.
  unfold plain_value, no_char. intros [H1 H2]%andb_true_iff.
  by apply bool_decide_eq_true in H2.
Qed.

Lemma to_text_pair_text k v :
  to_text (pair_text (k, v))
  = to_text k ++ ":"%char :: " "%char :: dquote :: to_text v ++ [dquote].
Proof.
  unfold pair_text, quoted. simpl. rewrite !to_text_app. simpl.
  by rewrite to_text_app.
Qed.

(** The quoted value, as [_parse_properties] cleans it. *)
Lemma clean_quoted_value v :
  strip_char "'" (strip_char dquote (to_text v)) = to_text v ->
  strip_char "'"
    (strip_char dquote (strip (" "%char :: dquote :: to_text v ++ [dquote])))
  = to_text v.
Proof.
  intros Hv.
  assert (strip (" "%char :: dquote :: to_text v ++ [dquote])
          = dquote :: to_text v ++ [dquote]) as ->.
  { unfold strip.
    etrans; [by apply (strip_by_pad_l is_space [" "%char])|].
    apply strip_by_id.
    - by intros c [= <-].
    - intros d. rewrite app_comm_cons, last_snoc. by intros [= <-]. }
  rewrite <- Hv at 2. f_equal.
  by apply (strip_by_pad (Ascii.eqb dquote) [dquote] (to_text v) [dquote]).
Qed.

Lemma parse_piece pad k v (m : gmap string string) :
  forallb is_space pad = true ->
  plain_key k = true -> plain_value v = true ->
  match split_once ":" (pad ++ to_text (pair_text (k, v))) with
  | Some (key, val) =>
      <[ of_text (strip key)
         := of_text (strip_char "'" (strip_char dquote (strip val))) ]> m
  | None => m
  end = <[ k := v ]> m.
Proof.
  intros Hpad (Hk1 & Hk2 & Hk3)%plain_key_spec (Hv1 & Hv2)%plain_value_spec.
  rewrite to_text_pair_text, app_assoc.
  rewrite split_once_app
    by (rewrite forallb_app, Hk2, andb_true_r;
        by apply forallb_space_no_char).
  rewrite clean_quoted_value by done.
  unfold strip. rewrite strip_by_pad_l by done. fold (strip (to_text k)).
  by rewrite Hk3, !of_to_text.
Qed.

Lemma pair_text_no_comma pad k v :
  forallb is_space pad = true ->
  plain_key k = true -> plain_value v = true ->
  forallb (fun c => negb (Ascii.eqb c ","))
          (pad ++ to_text (pair_text (k, v))) = true.
Proof.
  intros Hpad (Hk1 & Hk2 & Hk3)%plain_key_spec (Hv1 & Hv2)%plain_value_spec.
  rewrite to_text_pair_text, !forallb_app. simpl. rewrite forallb_app.
  rewrite Hk1, Hv1. simpl. rewrite andb_true_r.
  by apply forallb_space_no_char.
Qed.

Lemma parse_pairs_fold kvs pad (m : gmap string string) :
  kvs ≠ [] ->
  forallb is_space pad = true ->
  forallb (fun kv => plain_key kv.1 && plain_value kv.2) kvs = true ->
  foldl (fun props pair =>
           match split_once ":" pair with
           | Some (key, val) =>
               <[ of_text (strip key)
                  := of_text (strip_char "'" (strip_char dquote (strip val))) ]>
                 props
           | None => props
           end)
        m (split "," (pad ++ to_text (pairs_text kvs)))
  = foldl (fun (m : gmap string string) kv => <[ kv.1 := kv.2 ]> m) m kvs.
Proof.
  revert pad m. induction kvs as [|[k v] kvs IH]; intros pad m Hne Hpad Hall;
    [done|].
  simpl in Hall. apply andb_true_iff in Hall as [Hkv Hall].
  apply andb_true_iff in Hkv as [Hk Hv].
  destruct kvs as [|kv' rest].
  - simpl pairs_text. rewrite split_no_sep by (by apply pair_text_no_comma).
    simpl. by rewrite parse_piece.
  - change (pairs_text ((k, v) :: kv' :: rest))
      with (pair_text (k, v) +:+ ", " +:+ pairs_text (kv' :: rest)).
    rewrite !to_text_app. change (to_text ", ") with [","%char; " "%char].
    rewrite app_assoc.
    change ([","%char; " "%char] ++ ?t) with (","%char :: [" "%char] ++ t).
    rewrite split_app by (by apply pair_text_no_comma).
    cbn [foldl]. rewrite parse_piece by done.
    by rewrite (IH [" "%char]).
Qed.

(** X13. On a filter text [k1: (v1 quoted), k2: (v2 quoted), ...] whose
    keys have no comma, no colon and no white space at their ends, and
    whose values have no comma and no quote character at their ends,
    [_parse_properties] returns exactly the listed pairs; a key listed more
    than once keeps its last value. *)
Theorem _parse_properties_pairs (kvs : list (string * string)) :
  forallb (fun kv => plain_key kv.1 && plain_value kv.2) kvs = true ->
  _parse_properties (to_text (pairs_text kvs)) = list_to_map (reverse kvs).
Proof.
  intros Hall. rewrite <- foldl_insert_list_to_map.
  destruct kvs as [|kv kvs]; [done|].
  unfold _parse_properties.
  by rewrite <- (parse_pairs_fold (kv :: kvs) [] ∅).
Qed.

Lemma _parse_properties_pairs_witness :
  _parse_properties
    (to_text (pairs_text [("name", "Leather"); ("type", "Material");
                          ("name", "Premium: Calf")]))
  = list_to_map (reverse [("name", "Leather"); ("type", "Material");
                          ("name", "Premium: Calf")]).
Proof.
  apply (_parse_properties_pairs
           [("name", "Leather"); ("type", "Material");
            ("name", "Premium: Calf")]).
  reflexivity.
Defined.

(** ** More on snapshots *)

(** X14. The counter is not part of a snapshot.  A fresh store that imports
    a snapshot still has the counter 0, so the first node it creates
    without an explicit id under the label [lbl] gets the id [lbl_0]; when
    the snapshot holds a node of that id, the new node replaces it and the
    store has no more nodes than before. *)
Theorem import_then_create_node_replaces (db : GraphDatabase)
    (fs : gmap string json) (filepath lbl : string)
    (props : gmap string value) (old : node) :
  dict_wf (nodes db) ->
  forallb (fun kv => is_str kv.1) (nodes db) = true ->
  props !! "id" = None ->
  dict_get (synthesized_id lbl 0) (nodes db) = Some old ->
  exists db',
    import_from_json init (export_to_json db fs filepath) filepath
    = Ok (Installed db')
    /\ dict_get (synthesized_id lbl 0) (nodes db') = Some old
    /\ (create_node db' lbl props).2 = synthesized_id lbl 0
    /\ dict_get (synthesized_id lbl 0) (nodes (create_node db' lbl props).1)
       = Some (Node lbl props)
    /\ length (nodes (create_node db' lbl props).1) = length (nodes db).
Proof.
  intros Hwf Hstr Hid Hold. eexists. split; [by apply import_from_json_export|].
  unfold create_node, synthesized_id in *. rewrite Hid. simpl. split_and!.
  - done.
  - done.
  - apply dict_get_set_eq.
  - rewrite <- (length_fmap fst), dict_set_keys_mem, length_fmap; [done|].
    apply dict_mem_true. unfold dict_mem. by rewrite Hold.
Qed.

Lemma db_synthesized_wf : dict_wf (nodes db_synthesized).
Proof. apply create_node_wf, NoDup_nil_2. Qed.

Lemma import_then_create_node_replaces_witness :
  exists db',
    import_from_json init (export_to_json db_synthesized ∅ "graph.json")
      "graph.json" = Ok (Installed db')
    /\ dict_get (synthesized_id "Supplier" 0) (nodes db')
       = Some (Node "Supplier" {[ "name" := VStr "Tannery" ]})
    /\ dict_get (synthesized_id "Supplier" 0)
         (nodes (create_node db' "Supplier" {[ "name" := VStr "Mill" ]}).1)
       = Some (Node "Supplier" {[ "name" := VStr "Mill" ]}).
Proof.
  destruct (import_then_create_node_replaces db_synthesized ∅ "graph.json"
              "Supplier" {[ "name" := VStr "Mill" ]}
              (Node "Supplier" {[ "name" := VStr "Tannery" ]}))
    as (db' & H1 & H2 & _ & H3 & _).
  - apply db_synthesized_wf.
  - reflexivity.
  - reflexivity.
  - vm_compute. reflexivity.
  - exists db'. split; [exact H1|]. split; [exact H2|exact H3].
Defined.

(** ** More on the trace *)

Lemma bind_Forall2 {A B} (P : A -> Prop) `{forall x, Decision (P x)}
    (g : A -> B) (h : A -> list B) (l : list A) :
  (forall x, P x -> h x = [g x]) -> (forall x, ~ P x -> h x = []) ->
  l ≫= h = g <$> filter P l.
Proof.
  intros H1 H2. induction l as [|x l IH]; [done|].
  rewrite bind_cons, filter_cons, IH. case_decide.
  - by rewrite H1.
  - by rewrite H2.
Qed.

Lemma find_factory_fold db product_id rels st :
  foldl (fun st rel =>
           if bool_decide (rel_to rel = product_id)
              && String.eqb (rel_type rel) "MANUFACTURES"
           then match dict_get (rel_from rel) (nodes db) with
                | Some factory_node =>
                    (Some (properties factory_node),
                     st.2 ++ certifications_of db (rel_from rel))
                | None => st
                end
           else st)
        st rels
  = foldl (fun st rel =>
             match dict_get (rel_from rel) (nodes db) with
             | Some factory_node =>
                 (Some (properties factory_node),
                  st.2 ++ certifications_of db (rel_from rel))
             | None => st
             end)
          st (filter (fun rel => rel_to rel = product_id
                                 /\ rel_type rel = "MANUFACTURES") rels).
Proof.
  revert st. induction rels as [|rel rels IH]; intros st; [done|].
  rewrite filter_cons. simpl.
  destruct (bool_decide_reflect (rel_to rel = product_id)) as [Hto|Hto];
    destruct (String.eqb_spec (rel_type rel) "MANUFACTURES") as [Hty|Hty];
    simpl.
  - rewrite decide_True by done. simpl. apply IH.
  - rewrite decide_False by (by intros [_ ?]). apply IH.
  - rewrite decide_False by (by intros [? _]). apply IH.
  - rewrite decide_False by (by intros [? _]). apply IH.
Qed.

Lemma first_manufacturer_head rels product_id :
  first_manufacturer rels product_id
  = rel_from <$> head (filter (fun rel => rel_to rel = product_id
                                          /\ rel_type rel = "MANUFACTURES")
                              rels).
Proof.
  induction rels as [|rel rels IH]; [done|].
  rewrite filter_cons. simpl.
  destruct (bool_decide_reflect (rel_to rel = product_id)) as [Hto|Hto];
    destruct (String.eqb_spec (rel_type rel) "MANUFACTURES") as [Hty|Hty];
    simpl.
  - by rewrite decide_True.
  - by rewrite decide_False by (by intros [_ ?]).
  - by rewrite decide_False by (by intros [? _]).
  - by rewrite decide_False by (by intros [? _]).
Qed.

(** The trace of a product with exactly one manufacturer. *)
Lemma trace_single db product_id product_node rel factory_node :
  dict_get product_id (nodes db) = Some product_node ->
  manufacturers db product_id = [rel] ->
  dict_get (rel_from rel) (nodes db) = Some factory_node ->
  trace_supply_chain db product_id
  = {[ "product" := TProps (properties product_node);
       "factory" := TProps (properties factory_node);
       "materials" :=
         TMaterials
           (if negb (bool_decide (properties factory_node = ∅))
               && truthy (rel_from rel)
            then (collect_materials db (rel_from rel)).1 else []);
       "suppliers" :=
         TPropsList
           (unique_suppliers ∅
              (if negb (bool_decide (properties factory_node = ∅))
                  && truthy (rel_from rel)
               then (collect_materials db (rel_from rel)).2 else []));
       "certifications" := TPropsList (certifications_of db (rel_from rel)) ]}.
Proof.
  intros Hp Hm Hf. unfold manufacturers in Hm.
  unfold trace_supply_chain. rewrite Hp.
  unfold find_factory. rewrite find_factory_fold, Hm. simpl. rewrite Hf.
  rewrite first_manufacturer_head, Hm. simpl.
  destruct (negb (bool_decide (properties factory_node = ∅))); simpl; [|done].
  destruct (truthy (rel_from rel)); [|done].
  by destruct (collect_materials db (rel_from rel)).
Qed.

Lemma certifications_of_filter db factory :
  certifications_of db factory
  = (fun r => node_properties db (rel_to r))
      <$> filter (fun r => rel_from r = factory
                           /\ rel_type r = "HAS_CERTIFICATION"
                           /\ is_Some (dict_get (rel_to r) (nodes db)))
                 (relationships db).
Proof.
  unfold certifications_of. apply bind_Forall2.
  - intros r (Hf & Hty & [n Hn]). rewrite bool_decide_eq_true_2 by done.
    unfold node_properties. rewrite Hty. simpl. by rewrite Hn.
  - intros r Hr.
    destruct (bool_decide_reflect (rel_from r = factory)); [|done].
    destruct (String.eqb_spec (rel_type r) "HAS_CERTIFICATION"); [|done].
    simpl. destruct (dict_get (rel_to r) (nodes db)) eqn:E; [|done].
    destruct Hr. by split_and!.
Qed.

Lemma suppliers_of_material_filter db material :
  suppliers_of_material db material
  = (fun s => node_properties db (rel_from s))
      <$> filter (fun s => rel_to s = material
                           /\ rel_type s = "PROVIDES"
                           /\ is_Some (dict_get (rel_from s) (nodes db)))
                 (relationships db).
Proof.
  unfold suppliers_of_material. apply bind_Forall2.
  - intros r (Hf & Hty & [n Hn]). rewrite bool_decide_eq_true_2 by done.
    unfold node_properties. rewrite Hty. simpl. by rewrite Hn.
  - intros r Hr.
    destruct (bool_decide_reflect (rel_to r = material)); [|done].
    destruct (String.eqb_spec (rel_type r) "PROVIDES"); [|done].
    simpl. destruct (dict_get (rel_from r) (nodes db)) eqn:E; [|done].
    destruct Hr. by split_and!.
Qed.

Lemma collect_materials_fold db factory_id :
  (collect_materials db factory_id).1
  = (fun r =>
       <[ "suppliers" := MSuppliers (suppliers_of_material db (rel_from r)) ]>
         (MVal <$> node_properties db (rel_from r)))
      <$> filter (fun r => rel_to r = factory_id
                           /\ rel_type r = "SUPPLIED_TO"
                           /\ is_Some (dict_get (rel_from r) (nodes db)))
                 (relationships db).
Proof.
  unfold collect_materials.
  enough (forall rels st,
            (foldl (fun st rel =>
               if bool_decide (rel_to rel = factory_id)
                  && String.eqb (rel_type rel) "SUPPLIED_TO"
               then match dict_get (rel_from rel) (nodes db) with
                    | Some material_node =>
                        (st.1 ++ [<[ "suppliers" :=
                                       MSuppliers
                                         (suppliers_of_material db (rel_from rel)) ]>
                                    (MVal <$> properties material_node)],
                         st.2 ++ suppliers_of_material db (rel_from rel))
                    | None => st
                    end
               else st) st rels).1
            = st.1
              ++ ((fun r =>
                     <[ "suppliers" :=
                          MSuppliers (suppliers_of_material db (rel_from r)) ]>
                       (MVal <$> node_properties db (rel_from r)))
                    <$> filter (fun r => rel_to r = factory_id
                                         /\ rel_type r = "SUPPLIED_TO"
                                         /\ is_Some (dict_get (rel_from r)
                                                       (nodes db)))
                               rels)) as Hgen by apply (Hgen _ ([], [])).
  induction rels as [|rel rels IH]; intros st; simpl; [by rewrite app_nil_r|].
  rewrite filter_cons.
  destruct (bool_decide_reflect (rel_to rel = factory_id)) as [Hto|Hto];
    destruct (String.eqb_spec (rel_type rel) "SUPPLIED_TO") as [Hty|Hty];
    simpl;
    try (rewrite decide_False by (intros (? & ? & ?); done); by rewrite IH).
  destruct (dict_get (rel_from rel) (nodes db)) as [n|] eqn:E.
  - rewrite decide_True by (by split_and!). rewrite IH. simpl.
    unfold node_properties. by rewrite E, <- app_assoc.
  - rewrite decide_False; [by rewrite IH|].
    by intros (_ & _ & [? ?]).
Qed.

(** X15. When exactly one MANUFACTURES relationship leads into an existing
    product, and its source is a node with properties and a truthy id, the
    trace has the properties of that node as [factory]; its certifications
    are the properties of the targets of the HAS_CERTIFICATION
    relationships from it; its materials are the records of the sources of
    the SUPPLIED_TO relationships into it, and the list under [suppliers]
    in the record of a material holds the properties of the sources of the
    PROVIDES relationships into that material -- all in relationship-list
    order, and only for endpoints that are in the node table. *)
Theorem trace_single_manufacturer (db : GraphDatabase) (product_id : value)
    (product_node : node) (rel : relationship) (factory_node : node) :
  dict_get product_id (nodes db) = Some product_node ->
  manufacturers db product_id = [rel] ->
  dict_get (rel_from rel) (nodes db) = Some factory_node ->
  properties factory_node ≠ ∅ ->
  truthy (rel_from rel) = true ->
  trace_supply_chain db product_id !! "factory"
  = Some (TProps (properties factory_node))
  /\ trace_supply_chain db product_id !! "certifications"
     = Some (TPropsList
               ((fun r => node_properties db (rel_to r))
                  <$> filter (fun r => rel_from r = rel_from rel
                                       /\ rel_type r = "HAS_CERTIFICATION"
                                       /\ is_Some (dict_get (rel_to r) (nodes db)))
                             (relationships db)))
  /\ trace_supply_chain db product_id !! "materials"
     = Some (TMaterials
               ((fun r =>
                   <[ "suppliers" :=
                        MSuppliers
                          ((fun s => node_properties db (rel_from s))
                             <$> filter
                                   (fun s =>
                                      rel_to s = rel_from r
                                      /\ rel_type s = "PROVIDES"
                                      /\ is_Some (dict_get (rel_from s)
                                                    (nodes db)))
                                   (relationships db)) ]>
                     (MVal <$> node_properties db (rel_from r)))
                  <$> filter (fun r => rel_to r = rel_from rel
                                       /\ rel_type r = "SUPPLIED_TO"
                                       /\ is_Some (dict_get (rel_from r) (nodes db)))
                             (relationships db))).
Proof.
  intros Hp Hm Hf Hprops Htruthy.
  rewrite (trace_single db product_id product_node rel factory_node) by done.
  rewrite Htruthy, bool_decide_eq_false_2 by done. simpl.
  rewrite certifications_of_filter, collect_materials_fold.
  split_and!; [by simplify_map_eq..|].
  rewrite lookup_insert_ne, lookup_insert_ne, lookup_insert_eq by done.
  do 2 f_equal. apply list_fmap_ext. intros i r _.
  by rewrite suppliers_of_material_filter.
Qed.

Lemma trace_single_manufacturer_witness :
  trace_supply_chain db_shared_supplier (VStr "P1") !! "factory"
  = Some (TProps (props_of "F1" "Factory"))
  /\ trace_supply_chain db_shared_supplier (VStr "P1") !! "materials"
     = Some (TMaterials
               [ <[ "suppliers" := MSuppliers [props_of "S1" "Tannery"] ]>
                   (MVal <$> props_of "M1" "Leather");
                 <[ "suppliers" := MSuppliers [props_of "S1" "Tannery"] ]>
                   (MVal <$> props_of "M2" "Silk") ]).
Proof.
  destruct (trace_single_manufacturer db_shared_supplier (VStr "P1")
              (Node "Product" (props_of "P1" "Bag"))
              (Rel (VStr "F1") (VStr "P1") "MANUFACTURES" ∅)
              (Node "Factory" (props_of "F1" "Factory")))
    as (H1 & _ & H3).
  - vm_compute. reflexivity.
  - vm_compute. reflexivity.
  - vm_compute. reflexivity.
  - vm_compute. discriminate.
  - reflexivity.
  - split; [exact H1|]. rewrite H3. vm_compute. reflexivity.
Defined.

(** X16. When the single manufacturer of a product is a node without
    properties, or a node whose id is the empty string or the number 0, the
    trace still has that node's properties as [factory] and lists its
    certifications, but its [materials] and [suppliers] are empty, whatever
    is supplied to the factory. *)
Theorem trace_falsy_factory (db : GraphDatabase) (product_id : value)
    (product_node : node) (rel : relationship) (factory_node : node) :
  dict_get product_id (nodes db) = Some product_node ->
  manufacturers db product_id = [rel] ->
  dict_get (rel_from rel) (nodes db) = Some factory_node ->
  properties factory_node = ∅ \/ truthy (rel_from rel) = false ->
  trace_supply_chain db product_id !! "factory"
  = Some (TProps (properties factory_node))
  /\ trace_supply_chain db product_id !! "materials" = Some (TMaterials [])
  /\ trace_supply_chain db product_id !! "suppliers" = Some (TPropsList [])
  /\ trace_supply_chain db product_id !! "certifications"
     = Some (TPropsList
               ((fun r => node_properties db (rel_to r))
                  <$> filter (fun r => rel_from r = rel_from rel
                                       /\ rel_type r = "HAS_CERTIFICATION"
                                       /\ is_Some (dict_get (rel_to r) (nodes db)))
                             (relationships db))).
Proof.
  intros Hp Hm Hf Hfalsy.
  rewrite (trace_single db product_id product_node rel factory_node) by done.
  rewrite certifications_of_filter.
  assert (negb (bool_decide (properties factory_node = ∅))
          && truthy (rel_from rel) = false) as ->.
  { destruct Hfalsy as [->| ->]; [done|apply andb_false_r]. }
  split_and!; by simplify_map_eq.
Qed.

Lemma trace_falsy_factory_witness :
  get_all_relationships db_bare_factory (Some "SUPPLIED_TO")
  = [Rel (VStr "M1") (VStr "Factory_1") "SUPPLIED_TO" ∅]
  /\ trace_supply_chain db_bare_factory (VStr "P1") !! "factory"
     = Some (TProps ∅)
  /\ trace_supply_chain db_bare_factory (VStr "P1") !! "materials"
     = Some (TMaterials []).
Proof.
  split; [vm_compute; reflexivity|].
  destruct (trace_falsy_factory db_bare_factory (VStr "P1")
              (Node "Product" (props_of "P1" "Bag"))
              (Rel (VStr "Factory_1") (VStr "P1") "MANUFACTURES" ∅)
              (Node "Factory" ∅))
    as (H1 & H2 & _).
  - vm_compute. reflexivity.
  - vm_compute. reflexivity.
  - vm_compute. reflexivity.
  - by left.
  - by split.
Defined.

(** *** Suppliers that carry their id *)

Lemma suppliers_of_material_records db material :
  Forall (fun s => exists k n, dict_get k (nodes db) = Some n /\ s = properties n)
         (suppliers_of_material db material).
Proof.
  rewrite suppliers_of_material_filter. apply Forall_fmap, Forall_forall.
  intros r [(_ & _ & [n Hn]) _]%list_elem_of_filter.
  exists (rel_from r), n. split; [done|]. simpl.
  unfold node_properties. by rewrite Hn.
Qed.

Lemma collect_materials_records db factory_id :
  Forall (fun s => exists k n, dict_get k (nodes db) = Some n /\ s = properties n)
         (collect_materials db factory_id).2.
Proof.
  unfold collect_materials.
  apply (foldl_invariant
           (fun st : list (gmap string mval) * list (gmap string value) =>
              Forall (fun s => exists k n,
                        dict_get k (nodes db) = Some n /\ s = properties n)
                     st.2)); [|by constructor].
  intros [ms ss] rel Hst. simpl in *.
  destruct (_ && _); [|done].
  destruct (dict_get _ _); [|done]. simpl.
  apply Forall_app. split; [done|apply suppliers_of_material_records].
Qed.

(** The trace of an existing product, with the origin of the records in
    the materials' supplier lists. *)
Lemma trace_found_records db product_id product_node :
  dict_get product_id (nodes db) = Some product_node ->
  exists factory materials certifications,
    trace_supply_chain db product_id
    = {[ "product" := TProps (properties product_node);
         "factory" := factory;
         "materials" := TMaterials materials;
         "suppliers" :=
           TPropsList (unique_suppliers ∅ (concat (suppliers_in <$> materials)));
         "certifications" := TPropsList certifications ]}
    /\ Forall (fun s => exists k n,
                 dict_get k (nodes db) = Some n /\ s = properties n)
              (concat (suppliers_in <$> materials)).
Proof.
  intros Hp. unfold trace_supply_chain. rewrite Hp.
  destruct (find_factory db product_id) as [factory certs].
  destruct (factory_truthy factory); [|by eexists _, [], _].
  destruct (first_manufacturer _ _) as [fid|]; [|by eexists _, [], _].
  destruct (truthy fid); [|by eexists _, [], _].
  pose proof (collect_materials_suppliers db fid) as Hc.
  pose proof (collect_materials_records db fid) as Hr.
  destruct (collect_materials db fid) as [ms ss]. simpl in Hc, Hr. subst ss.
  by eexists _, ms, _.
Qed.

Lemma ids_in_properties_get db k n :
  ids_in_properties db = true -> dict_get k (nodes db) = Some n ->
  properties n !! "id" = Some k.
Proof.
  unfold ids_in_properties. rewrite forallb_forall. intros Hall Hk.
  apply dict_get_Some_elem, list_elem_of_In, Hall in Hk.
  by apply bool_decide_eq_true in Hk.
Qed.

(** X19.  In a store whose nodes all hold their own id among their
    properties, the list [suppliers] of the trace of an existing product
    holds every supplier record of every material's own list, and holds
    it once. *)
Theorem trace_suppliers_once (db : GraphDatabase) (product_id : value)
    (product_node : node) :
  ids_in_properties db = true ->
  dict_get product_id (nodes db) = Some product_node ->
  exists materials suppliers,
    trace_supply_chain db product_id !! "materials"
    = Some (TMaterials materials)
    /\ trace_supply_chain db product_id !! "suppliers"
       = Some (TPropsList suppliers)
    /\ NoDup suppliers
    /\ (forall s,
          s ∈ suppliers <-> exists m, m ∈ materials /\ s ∈ suppliers_in m).
Proof.
  intros Hids Hp.
  destruct (trace_found_records db product_id product_node Hp)
    as (factory & materials & certs & -> & Hrec).
  exists materials, (unique_suppliers ∅ (concat (suppliers_in <$> materials))).
  assert (forall s,
            s ∈ concat (suppliers_in <$> materials)
            <-> exists m, m ∈ materials /\ s ∈ suppliers_in m) as Hconcat.
  { intros s. rewrite list_elem_of_In, in_concat. split.
    - intros (l & Hl & Hs). apply list_elem_of_In, list_elem_of_fmap in Hl
        as (m & -> & Hm). exists m. split; [done|by apply list_elem_of_In].
    - intros (m & Hm & Hs). exists (suppliers_in m).
      split; apply list_elem_of_In; [|done].
      apply list_elem_of_fmap. by exists m. }
  split_and!.
  - by simplify_map_eq.
  - by simplify_map_eq.
  - apply (NoDup_fmap_1 (fun s : gmap string value => s !! "id")),
      unique_suppliers_NoDup.
  - intros s. rewrite <- Hconcat. split.
    + intros Hs. eapply elem_of_sublist; [done|apply unique_suppliers_sublist].
    + intros Hs.
      destruct (unique_suppliers_covers ∅ _ s Hs) as (s' & Hs' & Hid);
        [apply not_elem_of_empty|].
      assert (s' ∈ concat (suppliers_in <$> materials)) as Hs''
        by (eapply elem_of_sublist; [done|apply unique_suppliers_sublist]).
      rewrite Forall_forall in Hrec.
      destruct (Hrec s Hs) as (k & n & Hk & ->).
      destruct (Hrec s' Hs'') as (k' & n' & Hk' & ->).
      rewrite (ids_in_properties_get db k n),
        (ids_in_properties_get db k' n') in Hid by done.
      injection Hid as ->. rewrite Hk in Hk'. by injection Hk' as <-.
Qed.

Lemma trace_suppliers_once_witness :
  exists materials suppliers,
    trace_supply_chain db_shared_supplier (VStr "P1") !! "materials"
    = Some (TMaterials materials)
    /\ trace_supply_chain db_shared_supplier (VStr "P1") !! "suppliers"
       = Some (TPropsList suppliers)
    /\ NoDup suppliers
    /\ (forall s,
          s ∈ suppliers <-> exists m, m ∈ materials /\ s ∈ suppliers_in m).
Proof.
  apply (trace_suppliers_once db_shared_supplier (VStr "P1")
           (Node "Product" (props_of "P1" "Bag"))).
  - vm_compute. reflexivity.
  - vm_compute. reflexivity.
Defined.

(** ** Text above the ASCII range *)

